(** * Thread-local tally and reduction of energy and virial (USER-OMP)

    A shallow embedding of [src/USER-OMP/thr_omp.cpp] (class [ThrOMP] of
    LAMMPS) together with the properties of its tally and reduction
    operations.

    Modelling conventions.
    - A C [int] is a [Z]; a flag is tested the way C does it, by
      comparison with zero ([nonzero]); [eflag & 2] is [Z.land eflag 2].
      Signed overflow is undefined in C++ and has no counterpart here.
    - A C [double] is an exact real number ([R]): the sums and shares
      below are the ideal ones, rounding is not modelled.
    - A [double[6]] virial is the record [V6]; a [double[3]] vector is
      the record [V3].
    - [thr->_eatom] and [thr->_vatom] are pointers into the shared
      per-atom buffers; a pointer is the index of the cell it points at
      and [thr->_eatom[i]] is the cell [_eatom thr + i] of the buffer.
    - Every member function is [void] and mutates [*thr]; it is
      embedded as a state transformer ([cmd]), sequenced with [;;].
    - [reduce_thr] also reaches the shared objects behind [lmp] and calls
      functions of other files; its state ([rstate]) holds the shared
      objects, the caller's accumulator and the log of those calls. *)

From Stdlib Require Import ZArith List Bool Reals Lra Lia.
From Stdlib Require Import FunctionalExtensionality.
Import ListNotations.

Open Scope R_scope.

(** ** Scalars, flags and small vectors *)

(** The truth value of a C [int] used as a condition. *)
Definition nonzero (z : Z) : bool := negb (z =? 0)%Z.

(** Modelled from the spec: the constant [THIRD] of [math_const.h], a
    header that is not among the sources; it is the factor of the
    "third-share" of the triplet tally. *)
Definition THIRD : R := 1 / 3.

(** A [double[3]]: a force or a displacement. *)
Record V3 : Type := mkV3 { c0 : R; c1 : R; c2 : R }.

(** A [double[6]]: the symmetric tensor xx, yy, zz, xy, xz, yz. *)
Record V6 : Type := mkV6 { v0 : R; v1 : R; v2 : R; v3 : R; v4 : R; v5 : R }.

Definition V6zero : V6 := mkV6 0 0 0 0 0 0.

(** [static void v_tally(double *vout, const double *vin)] *)
Definition v_tally (vout vin : V6) : V6 :=
  mkV6 (v0 vout + v0 vin) (v1 vout + v1 vin) (v2 vout + v2 vin)
       (v3 vout + v3 vin) (v4 vout + v4 vin) (v5 vout + v5 vin).

(** [static void v_tally(double *vout, double scale, const double *vin)] *)
Definition v_tally_scale (vout : V6) (scale : R) (vin : V6) : V6 :=
  mkV6 (v0 vout + scale * v0 vin) (v1 vout + scale * v1 vin)
       (v2 vout + scale * v2 vin) (v3 vout + scale * v3 vin)
       (v4 vout + scale * v4 vin) (v5 vout + scale * v5 vin).

(** Scaling of a tensor, as in [vtmp[k] = s * v[k]] and [v[k] *= 0.25]. *)
Definition V6scale (s : R) (v : V6) : V6 :=
  mkV6 (s * v0 v) (s * v1 v) (s * v2 v) (s * v3 v) (s * v4 v) (s * v5 v).

(** Componentwise difference, used to speak of the increment of a slot. *)
Definition V6sub (a b : V6) : V6 :=
  mkV6 (v0 a - v0 b) (v1 a - v1 b) (v2 a - v2 b)
       (v3 a - v3 b) (v4 a - v4 b) (v5 a - v5 b).

(** An array cell update: [m[k] = x]. *)
Definition upd {A : Type} (m : Z -> A) (k : Z) (x : A) : Z -> A :=
  fun a => if (a =? k)%Z then x else m a.

(** ** The per-thread accumulator, [class ThrData] *)

(** The members of [ThrData] that [thr_omp.cpp] reads and writes. *)

Module ThrData.

Record t : Type := mk {
  tid : Z;
  eng_vdwl : R;
  eng_coul : R;
  eng_bond : R;
  eng_angle : R;
  eng_dihed : R;
  eng_imprp : R;
  eng_kspce : R;
  virial_pair : V6;
  virial_bond : V6;
  virial_angle : V6;
  virial_dihed : V6;
  virial_imprp : V6;
  virial_kspce : V6;
  _eatom : Z;
  _vatom : Z
}.

Definition get_tid (thr : t) : Z := tid thr.

Definition set_eng_vdwl (x : R) (d : t) : t :=
  mk (tid d) x (eng_coul d) (eng_bond d) (eng_angle d) (eng_dihed d)
     (eng_imprp d) (eng_kspce d) (virial_pair d) (virial_bond d)
     (virial_angle d) (virial_dihed d) (virial_imprp d) (virial_kspce d)
     (_eatom d) (_vatom d).

Definition set_eng_coul (x : R) (d : t) : t :=
  mk (tid d) (eng_vdwl d) x (eng_bond d) (eng_angle d) (eng_dihed d)
     (eng_imprp d) (eng_kspce d) (virial_pair d) (virial_bond d)
     (virial_angle d) (virial_dihed d) (virial_imprp d) (virial_kspce d)
     (_eatom d) (_vatom d).

Definition set_eng_bond (x : R) (d : t) : t :=
  mk (tid d) (eng_vdwl d) (eng_coul d) x (eng_angle d) (eng_dihed d)
     (eng_imprp d) (eng_kspce d) (virial_pair d) (virial_bond d)
     (virial_angle d) (virial_dihed d) (virial_imprp d) (virial_kspce d)
     (_eatom d) (_vatom d).

Definition set_virial_pair (x : V6) (d : t) : t :=
  mk (tid d) (eng_vdwl d) (eng_coul d) (eng_bond d) (eng_angle d)
     (eng_dihed d) (eng_imprp d) (eng_kspce d) x (virial_bond d)
     (virial_angle d) (virial_dihed d) (virial_imprp d) (virial_kspce d)
     (_eatom d) (_vatom d).

Definition set_virial_dihed (x : V6) (d : t) : t :=
  mk (tid d) (eng_vdwl d) (eng_coul d) (eng_bond d) (eng_angle d)
     (eng_dihed d) (eng_imprp d) (eng_kspce d) (virial_pair d)
     (virial_bond d) (virial_angle d) x (virial_imprp d) (virial_kspce d)
     (_eatom d) (_vatom d).

Definition set_eatom (p : Z) (d : t) : t :=
  mk (tid d) (eng_vdwl d) (eng_coul d) (eng_bond d) (eng_angle d)
     (eng_dihed d) (eng_imprp d) (eng_kspce d) (virial_pair d)
     (virial_bond d) (virial_angle d) (virial_dihed d) (virial_imprp d)
     (virial_kspce d) p (_vatom d).

Definition set_vatom (p : Z) (d : t) : t :=
  mk (tid d) (eng_vdwl d) (eng_coul d) (eng_bond d) (eng_angle d)
     (eng_dihed d) (eng_imprp d) (eng_kspce d) (virial_pair d)
     (virial_bond d) (virial_angle d) (virial_dihed d) (virial_imprp d)
     (virial_kspce d) (_eatom d) p.

End ThrData.

(** ** What a tally reads of the interaction styles *)

(** The flags of [class Pair] that the tallies test, and its totals. *)
Module Pair.
Record t : Type := mk {
  eflag_either : Z;
  eflag_global : Z;
  eflag_atom : Z;
  vflag_either : Z;
  vflag_global : Z;
  vflag_atom : Z;
  vflag_fdotr : Z;
  eng_vdwl : R;
  eng_coul : R;
  virial : V6
}.
End Pair.

(** [class Dihedral]: the same flags and one energy total. *)
Module Dihedral.
Record t : Type := mk {
  eflag_either : Z;
  eflag_global : Z;
  eflag_atom : Z;
  vflag_either : Z;
  vflag_global : Z;
  vflag_atom : Z;
  energy : R;
  virial : V6
}.
End Dihedral.

(** ** The state a tally works on *)

(** The calling thread's accumulator and the two shared per-atom
    buffers its slices point into. *)
Record state : Type := mkState {
  thr : ThrData.t;
  eatom : Z -> R;
  vatom : Z -> V6
}.

(** Statement combinators, for any state type. *)
Definition skip {S : Type} : S -> S := fun s => s.

Definition andthen {S : Type} (c1 c2 : S -> S) : S -> S := fun s => c2 (c1 s).

Notation "c1 ;; c2" := (andthen c1 c2) (at level 61, right associativity).

(** [if (b) c] without an [else]. *)
Definition when {S : Type} (b : bool) (c : S -> S) : S -> S :=
  fun s => if b then c s else s.

(** [if (b) c1 else c2]. *)
Definition ifelse {S : Type} (b : bool) (c1 c2 : S -> S) : S -> S :=
  fun s => if b then c1 s else c2 s.

Definition cmd : Type := state -> state.

Definition on_thr (f : ThrData.t -> ThrData.t) : cmd :=
  fun s => mkState (f (thr s)) (eatom s) (vatom s).

(** [thr->eng_vdwl += x] and its siblings. *)
Definition add_eng_vdwl (x : R) : cmd :=
  on_thr (fun d => ThrData.set_eng_vdwl (ThrData.eng_vdwl d + x) d).

Definition add_eng_coul (x : R) : cmd :=
  on_thr (fun d => ThrData.set_eng_coul (ThrData.eng_coul d + x) d).

Definition add_eng_bond (x : R) : cmd :=
  on_thr (fun d => ThrData.set_eng_bond (ThrData.eng_bond d + x) d).

(** [v_tally(thr->virial_pair, v)] and [v_tally(thr->virial_pair, s, v)]. *)
Definition tally_virial_pair (v : V6) : cmd :=
  on_thr (fun d => ThrData.set_virial_pair (v_tally (ThrData.virial_pair d) v) d).

Definition tally_virial_pair_scale (s : R) (v : V6) : cmd :=
  on_thr (fun d =>
    ThrData.set_virial_pair (v_tally_scale (ThrData.virial_pair d) s v) d).

(** [v_tally(thr->virial_dihed, v)] and [v_tally(thr->virial_dihed, s, v)]. *)
Definition tally_virial_dihed (v : V6) : cmd :=
  on_thr (fun d => ThrData.set_virial_dihed (v_tally (ThrData.virial_dihed d) v) d).

Definition tally_virial_dihed_scale (s : R) (v : V6) : cmd :=
  on_thr (fun d =>
    ThrData.set_virial_dihed (v_tally_scale (ThrData.virial_dihed d) s v) d).

(** The cells [thr->_eatom[i]] and [thr->_vatom[i]]. *)
Definition eatom_slot (d : ThrData.t) (i : Z) : Z := (ThrData._eatom d + i)%Z.
Definition vatom_slot (d : ThrData.t) (i : Z) : Z := (ThrData._vatom d + i)%Z.

(** [thr->_eatom[i] += x] *)
Definition add_eatom (i : Z) (x : R) : cmd :=
  fun s =>
    let a := eatom_slot (thr s) i in
    mkState (thr s) (upd (eatom s) a (eatom s a + x)) (vatom s).

(** [v_tally(thr->_vatom[i], v)] *)
Definition tally_vatom (i : Z) (v : V6) : cmd :=
  fun s =>
    let a := vatom_slot (thr s) i in
    mkState (thr s) (eatom s) (upd (vatom s) a (v_tally (vatom s a) v)).

(** [v_tally(thr->_vatom[i], scale, v)] *)
Definition tally_vatom_scale (i : Z) (scale : R) (v : V6) : cmd :=
  fun s =>
    let a := vatom_slot (thr s) i in
    mkState (thr s) (eatom s)
            (upd (vatom s) a (v_tally_scale (vatom s a) scale v)).

(** ** The tally operations of [ThrOMP] *)

(** [ThrOMP::ev_setup_thr]: hook the per-thread slices of the shared
    per-atom buffers into [thr].  [eatom_base] and [vatom_base] are the
    arguments [eatom] and [vatom], the addresses of the buffers; [vatom]
    is a [double **], so its unit is one row of six components. *)
Definition ev_setup_thr (eflag vflag nall : Z) (eatom_base vatom_base : Z) : cmd :=
  fun s =>
    let tid := ThrData.get_tid (thr s) in
    (when (nonzero (Z.land eflag 2))
       (on_thr (ThrData.set_eatom (eatom_base + tid * nall)%Z)) ;;
     when (nonzero (Z.land vflag 4))
       (on_thr (ThrData.set_vatom (vatom_base + tid * nall)%Z))) s.

(** [ThrOMP::e_tally_thr] *)
Definition e_tally_thr (pair : Pair.t) (i j nlocal newton_pair : Z)
    (evdwl ecoul : R) : cmd :=
  when (nonzero (Pair.eflag_global pair))
    (ifelse (nonzero newton_pair)
       (add_eng_vdwl evdwl ;;
        add_eng_coul ecoul)
       (let evdwlhalf := 0.5 * evdwl in
        let ecoulhalf := 0.5 * ecoul in
        when (i <? nlocal)%Z
          (add_eng_vdwl evdwlhalf ;;
           add_eng_coul ecoulhalf) ;;
        when (j <? nlocal)%Z
          (add_eng_vdwl evdwlhalf ;;
           add_eng_coul ecoulhalf))) ;;
  when (nonzero (Pair.eflag_atom pair))
    (let epairhalf := 0.5 * (evdwl + ecoul) in
     when (nonzero newton_pair || (i <? nlocal)%Z) (add_eatom i epairhalf) ;;
     when (nonzero newton_pair || (j <? nlocal)%Z) (add_eatom j epairhalf)).

(** [ThrOMP::v_tally_thr] *)
Definition v_tally_thr (pair : Pair.t) (i j nlocal newton_pair : Z)
    (v : V6) : cmd :=
  when (nonzero (Pair.vflag_global pair))
    (ifelse (nonzero newton_pair)
       (tally_virial_pair v)
       (when (i <? nlocal)%Z (tally_virial_pair_scale 0.5 v) ;;
        when (j <? nlocal)%Z (tally_virial_pair_scale 0.5 v))) ;;
  when (nonzero (Pair.vflag_atom pair))
    (when (nonzero newton_pair || (i <? nlocal)%Z) (tally_vatom_scale i 0.5 v) ;;
     when (nonzero newton_pair || (j <? nlocal)%Z) (tally_vatom_scale j 0.5 v)).

(** [ThrOMP::ev_tally_thr(Pair *, ...)] *)
Definition ev_tally_thr (pair : Pair.t) (i j nlocal newton_pair : Z)
    (evdwl ecoul fpair delx dely delz : R) : cmd :=
  when (nonzero (Pair.eflag_either pair))
    (e_tally_thr pair i j nlocal newton_pair evdwl ecoul) ;;
  when (nonzero (Pair.vflag_either pair))
    (let v := mkV6 (delx * delx * fpair) (dely * dely * fpair)
                   (delz * delz * fpair) (delx * dely * fpair)
                   (delx * delz * fpair) (dely * delz * fpair) in
     v_tally_thr pair i j nlocal newton_pair v).

(** [ThrOMP::ev_tally_xyz_thr] *)
Definition ev_tally_xyz_thr (pair : Pair.t) (i j nlocal newton_pair : Z)
    (evdwl ecoul fx fy fz delx dely delz : R) : cmd :=
  when (nonzero (Pair.eflag_either pair))
    (e_tally_thr pair i j nlocal newton_pair evdwl ecoul) ;;
  when (nonzero (Pair.vflag_either pair))
    (let v := mkV6 (delx * fx) (dely * fy) (delz * fz)
                   (delx * fy) (delx * fz) (dely * fz) in
     v_tally_thr pair i j nlocal newton_pair v).

(** The virial [drji*fj + drki*fk] that [ev_tally3_thr] builds. *)
Definition virial3 (fj fk drji drki : V3) : V6 :=
  mkV6 (c0 drji * c0 fj + c0 drki * c0 fk)
       (c1 drji * c1 fj + c1 drki * c1 fk)
       (c2 drji * c2 fj + c2 drki * c2 fk)
       (c0 drji * c1 fj + c0 drki * c1 fk)
       (c0 drji * c2 fj + c0 drki * c2 fk)
       (c1 drji * c2 fj + c1 drki * c2 fk).

(** [ThrOMP::ev_tally3_thr] *)
Definition ev_tally3_thr (pair : Pair.t) (i j k : Z) (evdwl ecoul : R)
    (fj fk drji drki : V3) : cmd :=
  when (nonzero (Pair.eflag_either pair))
    (when (nonzero (Pair.eflag_global pair))
       (add_eng_vdwl evdwl ;;
        add_eng_coul ecoul) ;;
     when (nonzero (Pair.eflag_atom pair))
       (let epairthird := THIRD * (evdwl + ecoul) in
        add_eatom i epairthird ;;
        add_eatom j epairthird ;;
        add_eatom k epairthird)) ;;
  when (nonzero (Pair.vflag_either pair))
    (let v := virial3 fj fk drji drki in
     when (nonzero (Pair.vflag_global pair)) (tally_virial_pair v) ;;
     when (nonzero (Pair.vflag_atom pair))
       (tally_vatom_scale i THIRD v ;;
        tally_vatom_scale j THIRD v ;;
        tally_vatom_scale k THIRD v)).

(** The sum [drim*fi + drjm*fj + drkm*fk] of [ev_tally4_thr], before the
    factor 0.25 that the source applies to each component. *)
Definition virial4 (fi fj fk drim drjm drkm : V3) : V6 :=
  mkV6 (c0 drim * c0 fi + c0 drjm * c0 fj + c0 drkm * c0 fk)
       (c1 drim * c1 fi + c1 drjm * c1 fj + c1 drkm * c1 fk)
       (c2 drim * c2 fi + c2 drjm * c2 fj + c2 drkm * c2 fk)
       (c0 drim * c1 fi + c0 drjm * c1 fj + c0 drkm * c1 fk)
       (c0 drim * c2 fi + c0 drjm * c2 fj + c0 drkm * c2 fk)
       (c1 drim * c2 fi + c1 drjm * c2 fj + c1 drkm * c2 fk).

(** [ThrOMP::ev_tally4_thr] *)
Definition ev_tally4_thr (pair : Pair.t) (i j k m : Z) (evdwl : R)
    (fi fj fk drim drjm drkm : V3) : cmd :=
  when (nonzero (Pair.eflag_either pair))
    (when (nonzero (Pair.eflag_global pair)) (add_eng_vdwl evdwl) ;;
     when (nonzero (Pair.eflag_atom pair))
       (let epairfourth := 0.25 * evdwl in
        add_eatom i epairfourth ;;
        add_eatom j epairfourth ;;
        add_eatom k epairfourth ;;
        add_eatom m epairfourth)) ;;
  when (nonzero (Pair.vflag_atom pair))
    (let v := V6scale 0.25 (virial4 fi fj fk drim drjm drkm) in
     tally_vatom i v ;;
     tally_vatom j v ;;
     tally_vatom k v ;;
     tally_vatom m v).

(** [for (int i = 0; i < n; i++) body(list[i])]: the first [n] entries of
    the list, in order. *)
Fixpoint for_list (body : Z -> cmd) (l : list Z) : cmd :=
  match l with
  | [] => skip
  | j :: l' => body j ;; for_list body l'
  end.

(** [ThrOMP::ev_tally_list_thr] *)
Definition ev_tally_list_thr (pair : Pair.t) (n : Z) (list : list Z)
    (ecoul : R) (v : V6) : cmd :=
  when (nonzero (Pair.eflag_either pair))
    (when (nonzero (Pair.eflag_global pair)) (add_eng_coul ecoul) ;;
     when (nonzero (Pair.eflag_atom pair))
       (let epairatom := ecoul / IZR n in
        for_list (fun j => add_eatom j epairatom) (firstn (Z.to_nat n) list))) ;;
  when (nonzero (Pair.vflag_either pair))
    (when (nonzero (Pair.vflag_global pair)) (tally_virial_pair v) ;;
     when (nonzero (Pair.vflag_atom pair))
       (let s := 1.0 / IZR n in
        let vtmp := V6scale s v in
        for_list (fun j => tally_vatom j vtmp) (firstn (Z.to_nat n) list))).

(** The number of the four atoms that are local:
    [int cnt = 0; if (i1 < nlocal) ++cnt; ... if (i4 < nlocal) ++cnt;] *)
Definition count_local (i1 i2 i3 i4 nlocal : Z) : Z :=
  let cnt := 0%Z in
  let cnt := if (i1 <? nlocal)%Z then (cnt + 1)%Z else cnt in
  let cnt := if (i2 <? nlocal)%Z then (cnt + 1)%Z else cnt in
  let cnt := if (i3 <? nlocal)%Z then (cnt + 1)%Z else cnt in
  let cnt := if (i4 <? nlocal)%Z then (cnt + 1)%Z else cnt in
  cnt.

(** The virial [vb1*f1 + vb2*f3 + (vb3+vb2)*f4] of the dihedral tally. *)
Definition virial_dihedral (f1 f3 f4 : V3)
    (vb1x vb1y vb1z vb2x vb2y vb2z vb3x vb3y vb3z : R) : V6 :=
  mkV6 (vb1x * c0 f1 + vb2x * c0 f3 + (vb3x + vb2x) * c0 f4)
       (vb1y * c1 f1 + vb2y * c1 f3 + (vb3y + vb2y) * c1 f4)
       (vb1z * c2 f1 + vb2z * c2 f3 + (vb3z + vb2z) * c2 f4)
       (vb1x * c1 f1 + vb2x * c1 f3 + (vb3x + vb2x) * c1 f4)
       (vb1x * c2 f1 + vb2x * c2 f3 + (vb3x + vb2x) * c2 f4)
       (vb1y * c2 f1 + vb2y * c2 f3 + (vb3y + vb2y) * c2 f4).

(** [ThrOMP::ev_tally_thr(Dihedral *, ...)].  The four guards of the last
    block all test [i1] and all write [thr->_vatom[i1]], as the source
    does. *)
Definition ev_tally_thr_dihedral (dihed : Dihedral.t) (i1 i2 i3 i4 nlocal : Z)
    (newton_bond : Z) (edihedral : R) (f1 f3 f4 : V3)
    (vb1x vb1y vb1z vb2x vb2y vb2z vb3x vb3y vb3z : R) : cmd :=
  when (nonzero (Dihedral.eflag_either dihed))
    (when (nonzero (Dihedral.eflag_global dihed))
       (ifelse (nonzero newton_bond)
          (add_eng_bond edihedral)
          (let edihedralquarter := 0.25 * edihedral in
           let cnt := count_local i1 i2 i3 i4 nlocal in
           add_eng_bond (IZR cnt * edihedralquarter))) ;;
     when (nonzero (Dihedral.eflag_atom dihed))
       (let edihedralquarter := 0.25 * edihedral in
        ifelse (nonzero newton_bond)
          (add_eatom i1 edihedralquarter ;;
           add_eatom i2 edihedralquarter ;;
           add_eatom i3 edihedralquarter ;;
           add_eatom i4 edihedralquarter)
          (when (i1 <? nlocal)%Z (add_eatom i1 edihedralquarter) ;;
           when (i2 <? nlocal)%Z (add_eatom i2 edihedralquarter) ;;
           when (i3 <? nlocal)%Z (add_eatom i3 edihedralquarter) ;;
           when (i4 <? nlocal)%Z (add_eatom i4 edihedralquarter)))) ;;
  when (nonzero (Dihedral.vflag_either dihed))
    (let v := virial_dihedral f1 f3 f4 vb1x vb1y vb1z vb2x vb2y vb2z
                              vb3x vb3y vb3z in
     when (nonzero (Dihedral.vflag_global dihed))
       (ifelse (nonzero newton_bond)
          (tally_virial_dihed v)
          (let cnt := count_local i1 i2 i3 i4 nlocal in
           tally_virial_dihed_scale (0.25 * IZR cnt) v)) ;;
     let v := V6scale 0.25 v in
     when (nonzero (Dihedral.vflag_atom dihed))
       (ifelse (nonzero newton_bond)
          (tally_vatom i1 v ;;
           tally_vatom i2 v ;;
           tally_vatom i3 v ;;
           tally_vatom i4 v)
          (when (i1 <? nlocal)%Z (tally_vatom i1 v) ;;
           when (i1 <? nlocal)%Z (tally_vatom i1 v) ;;
           when (i1 <? nlocal)%Z (tally_vatom i1 v) ;;
           when (i1 <? nlocal)%Z (tally_vatom i1 v)))).

(** [ThrOMP::v_tally2_thr] *)
Definition v_tally2_thr (i j : Z) (fpair : R) (drij : V3) : cmd :=
  let v := mkV6 (0.5 * c0 drij * c0 drij * fpair)
                (0.5 * c1 drij * c1 drij * fpair)
                (0.5 * c2 drij * c2 drij * fpair)
                (0.5 * c0 drij * c1 drij * fpair)
                (0.5 * c0 drij * c2 drij * fpair)
                (0.5 * c1 drij * c2 drij * fpair) in
  tally_vatom i v ;;
  tally_vatom j v.

(** [ThrOMP::v_tally3_thr] *)
Definition v_tally3_thr (i j k : Z) (fi fj drik drjk : V3) : cmd :=
  let v := mkV6 (THIRD * (c0 drik * c0 fi + c0 drjk * c0 fj))
                (THIRD * (c1 drik * c1 fi + c1 drjk * c1 fj))
                (THIRD * (c2 drik * c2 fi + c2 drjk * c2 fj))
                (THIRD * (c0 drik * c1 fi + c0 drjk * c1 fj))
                (THIRD * (c0 drik * c2 fi + c0 drjk * c2 fj))
                (THIRD * (c1 drik * c2 fi + c1 drjk * c2 fj)) in
  tally_vatom i v ;;
  tally_vatom j v ;;
  tally_vatom k v.

(** [ThrOMP::v_tally4_thr] *)
Definition v_tally4_thr (i j k m : Z) (fi fj fk drim drjm drkm : V3) : cmd :=
  let v := V6scale 0.25 (virial4 fi fj fk drim drjm drkm) in
  tally_vatom i v ;;
  tally_vatom j v ;;
  tally_vatom k v ;;
  tally_vatom m v.

(** ** The shared objects that the reduction updates *)

(** The totals of [class Bond], [Angle], [Improper] and [KSpace]. *)
Module Bond.
Record t : Type := mk { energy : R; virial : V6 }.
End Bond.

Module Angle.
Record t : Type := mk { energy : R; virial : V6 }.
End Angle.

Module Improper.
Record t : Type := mk { energy : R; virial : V6 }.
End Improper.

Module KSpace.
Record t : Type := mk { energy : R; virial : V6 }.
End KSpace.

(** The value of [thr_style] and of [fix->last_omp_style].  Both are
    [int]s; the six case labels of the [switch] are the six categories,
    and [THR_OTHER code] is any other value, kept as the integer it is. *)
Inductive thr_style_t : Type :=
| THR_OTHER (code : Z) | THR_PAIR | THR_BOND | THR_ANGLE
| THR_DIHEDRAL | THR_IMPROPER | THR_KSPACE.

(** [a == b] on two such values. *)
Definition thr_style_eqb (a b : thr_style_t) : bool :=
  match a, b with
  | THR_OTHER m, THR_OTHER n => (m =? n)%Z
  | THR_PAIR, THR_PAIR | THR_BOND, THR_BOND
  | THR_ANGLE, THR_ANGLE | THR_DIHEDRAL, THR_DIHEDRAL
  | THR_IMPROPER, THR_IMPROPER | THR_KSPACE, THR_KSPACE => true
  | _, _ => false
  end.

(** A flat [double] array such as [&(f[0][0])]. *)
Definition array : Type := Z -> R.

(** What [reduce_thr] reaches through [lmp]: [lmp->atom], [lmp->comm],
    [lmp->neighbor] and [lmp->force].  [torque] is [None] for a null
    pointer. *)
Module LAMMPS.
Record t : Type := mk {
  nlocal : Z;
  nghost : Z;
  nfirst : Z;
  x : array;
  f : array;
  torque : option array;
  nthreads : Z;
  includegroup : Z;
  pair : Pair.t;
  bond : Bond.t;
  angle : Angle.t;
  dihedral : Dihedral.t;
  improper : Improper.t;
  kspace : KSpace.t
}.

Definition set_f (a : array) (l : t) : t :=
  mk (nlocal l) (nghost l) (nfirst l) (x l) a (torque l) (nthreads l)
     (includegroup l) (pair l) (bond l) (angle l) (dihedral l) (improper l)
     (kspace l).

Definition set_torque (a : option array) (l : t) : t :=
  mk (nlocal l) (nghost l) (nfirst l) (x l) (f l) a (nthreads l)
     (includegroup l) (pair l) (bond l) (angle l) (dihedral l) (improper l)
     (kspace l).

Definition set_pair (p : Pair.t) (l : t) : t :=
  mk (nlocal l) (nghost l) (nfirst l) (x l) (f l) (torque l) (nthreads l)
     (includegroup l) p (bond l) (angle l) (dihedral l) (improper l)
     (kspace l).

Definition set_bond (p : Bond.t) (l : t) : t :=
  mk (nlocal l) (nghost l) (nfirst l) (x l) (f l) (torque l) (nthreads l)
     (includegroup l) (pair l) p (angle l) (dihedral l) (improper l)
     (kspace l).

Definition set_angle (p : Angle.t) (l : t) : t :=
  mk (nlocal l) (nghost l) (nfirst l) (x l) (f l) (torque l) (nthreads l)
     (includegroup l) (pair l) (bond l) p (dihedral l) (improper l)
     (kspace l).

Definition set_dihedral (p : Dihedral.t) (l : t) : t :=
  mk (nlocal l) (nghost l) (nfirst l) (x l) (f l) (torque l) (nthreads l)
     (includegroup l) (pair l) (bond l) (angle l) p (improper l)
     (kspace l).

Definition set_improper (p : Improper.t) (l : t) : t :=
  mk (nlocal l) (nghost l) (nfirst l) (x l) (f l) (torque l) (nthreads l)
     (includegroup l) (pair l) (bond l) (angle l) (dihedral l) p
     (kspace l).

Definition set_kspace (p : KSpace.t) (l : t) : t :=
  mk (nlocal l) (nghost l) (nfirst l) (x l) (f l) (torque l) (nthreads l)
     (includegroup l) (pair l) (bond l) (angle l) (dihedral l) (improper l)
     p.
End LAMMPS.

(** The calls that leave [thr_omp.cpp], with their integer arguments. *)
Inductive target : Type := force_array | torque_array.

Inductive call : Type :=
| call_sync_threads
| call_virial_fdotr_compute (nlocal nghost nfirst : Z)
| call_data_reduce_thr (dall : target) (nall nthreads ndim tid : Z).

(** The state of a call of [reduce_thr]: the shared objects, the calling
    thread's accumulator and the calls made so far, oldest first. *)
Record rstate : Type := mkR {
  lmp : LAMMPS.t;
  cur : ThrData.t;
  calls : list call
}.

Definition on_lmp (g : LAMMPS.t -> LAMMPS.t) : rstate -> rstate :=
  fun s => mkR (g (lmp s)) (cur s) (calls s).

Definition emit (c : call) : rstate -> rstate :=
  fun s => mkR (lmp s) (cur s) (calls s ++ [c]).

Definition sync_threads : rstate -> rstate := emit call_sync_threads.

(** [for (int i=0; i < 6; ++i) a[i] += b[i];] *)
Definition V6add (a b : V6) : V6 :=
  mkV6 (v0 a + v0 b) (v1 a + v1 b) (v2 a + v2 b)
       (v3 a + v3 b) (v4 a + v4 b) (v5 a + v5 b).

(** [pair->eng_vdwl += thr->eng_vdwl; pair->eng_coul += thr->eng_coul;] *)
Definition merge_pair_energy : rstate -> rstate :=
  fun s =>
    let p := LAMMPS.pair (lmp s) in
    on_lmp (LAMMPS.set_pair
      (Pair.mk (Pair.eflag_either p) (Pair.eflag_global p) (Pair.eflag_atom p)
               (Pair.vflag_either p) (Pair.vflag_global p) (Pair.vflag_atom p)
               (Pair.vflag_fdotr p)
               (Pair.eng_vdwl p + ThrData.eng_vdwl (cur s))
               (Pair.eng_coul p + ThrData.eng_coul (cur s))
               (Pair.virial p))) s.

(** [for (i...) pair->virial[i] += thr->virial_pair[i];] *)
Definition merge_pair_virial : rstate -> rstate :=
  fun s =>
    let p := LAMMPS.pair (lmp s) in
    on_lmp (LAMMPS.set_pair
      (Pair.mk (Pair.eflag_either p) (Pair.eflag_global p) (Pair.eflag_atom p)
               (Pair.vflag_either p) (Pair.vflag_global p) (Pair.vflag_atom p)
               (Pair.vflag_fdotr p) (Pair.eng_vdwl p) (Pair.eng_coul p)
               (V6add (Pair.virial p) (ThrData.virial_pair (cur s))))) s.

(** [bond->energy += thr->eng_bond; for (i...) bond->virial[i] += ...] *)
Definition merge_bond : rstate -> rstate :=
  fun s =>
    let b := LAMMPS.bond (lmp s) in
    on_lmp (LAMMPS.set_bond
      (Bond.mk (Bond.energy b + ThrData.eng_bond (cur s))
               (V6add (Bond.virial b) (ThrData.virial_bond (cur s))))) s.

Definition merge_angle : rstate -> rstate :=
  fun s =>
    let b := LAMMPS.angle (lmp s) in
    on_lmp (LAMMPS.set_angle
      (Angle.mk (Angle.energy b + ThrData.eng_angle (cur s))
                (V6add (Angle.virial b) (ThrData.virial_angle (cur s))))) s.

Definition merge_dihedral : rstate -> rstate :=
  fun s =>
    let b := LAMMPS.dihedral (lmp s) in
    on_lmp (LAMMPS.set_dihedral
      (Dihedral.mk (Dihedral.eflag_either b) (Dihedral.eflag_global b)
                   (Dihedral.eflag_atom b) (Dihedral.vflag_either b)
                   (Dihedral.vflag_global b) (Dihedral.vflag_atom b)
                   (Dihedral.energy b + ThrData.eng_dihed (cur s))
                   (V6add (Dihedral.virial b) (ThrData.virial_dihed (cur s))))) s.

Definition merge_improper : rstate -> rstate :=
  fun s =>
    let b := LAMMPS.improper (lmp s) in
    on_lmp (LAMMPS.set_improper
      (Improper.mk (Improper.energy b + ThrData.eng_imprp (cur s))
                   (V6add (Improper.virial b) (ThrData.virial_imprp (cur s))))) s.

Definition merge_kspace : rstate -> rstate :=
  fun s =>
    let b := LAMMPS.kspace (lmp s) in
    on_lmp (LAMMPS.set_kspace
      (KSpace.mk (KSpace.energy b + ThrData.eng_kspce (cur s))
                 (V6add (KSpace.virial b) (ThrData.virial_kspce (cur s))))) s.

Section Reduce.

(** [ThrData::virial_fdotr_compute] and [data_reduce_thr] are defined in
    [thr_data.cpp], which is not part of the sources at hand; they are
    parameters of the embedding.  The first updates the accumulator of
    the calling thread from the positions; the second folds the
    per-thread slices of a flat array. *)
Variable virial_fdotr_compute :
  array -> Z -> Z -> Z -> ThrData.t -> ThrData.t.
Variable data_reduce_thr : array -> Z -> Z -> Z -> Z -> array.

(** [thr->virial_fdotr_compute(x, nlocal, nghost, nfirst)] *)
Definition do_virial_fdotr (x : array) (nlocal nghost nfirst : Z)
    : rstate -> rstate :=
  fun s =>
    mkR (lmp s) (virial_fdotr_compute x nlocal nghost nfirst (cur s))
        (calls s ++ [call_virial_fdotr_compute nlocal nghost nfirst]).

(** [data_reduce_thr(&(f[0][0]), nall, nthreads, ndim, tid)] *)
Definition do_reduce_force (nall nthreads ndim tid : Z) : rstate -> rstate :=
  fun s =>
    mkR (LAMMPS.set_f
           (data_reduce_thr (LAMMPS.f (lmp s)) nall nthreads ndim tid) (lmp s))
        (cur s)
        (calls s ++ [call_data_reduce_thr force_array nall nthreads ndim tid]).

(** [data_reduce_thr(&(lmp->atom->torque[0][0]), nall, nthreads, ndim, tid)] *)
Definition do_reduce_torque (t : array) (nall nthreads ndim tid : Z)
    : rstate -> rstate :=
  fun s =>
    mkR (LAMMPS.set_torque
           (Some (data_reduce_thr t nall nthreads ndim tid)) (lmp s))
        (cur s)
        (calls s ++ [call_data_reduce_thr torque_array nall nthreads ndim tid]).

(** [ThrOMP::reduce_thr], for the object whose members are [thr_style]
    and [fix->last_omp_style]. *)
Definition reduce_thr (thr_style last_omp_style : thr_style_t)
    (eflag vflag : Z) : rstate -> rstate :=
  fun s0 =>
    let nlocal := LAMMPS.nlocal (lmp s0) in
    let nghost := LAMMPS.nghost (lmp s0) in
    let nall := (nlocal + nghost)%Z in
    let nfirst := LAMMPS.nfirst (lmp s0) in
    let nthreads := LAMMPS.nthreads (lmp s0) in
    let evflag := Z.lor eflag vflag in
    let tid := ThrData.get_tid (cur s0) in
    let x := LAMMPS.x (lmp s0) in
    (match thr_style with
     | THR_PAIR =>
         when (nonzero (Pair.vflag_fdotr (LAMMPS.pair (lmp s0))))
           (sync_threads ;;
            ifelse (LAMMPS.includegroup (lmp s0) =? 0)%Z
              (do_virial_fdotr x nlocal nghost (-1))
              (do_virial_fdotr x nlocal nghost nfirst)) ;;
         when (nonzero evflag)
           (sync_threads ;;
            when (nonzero (Z.land eflag 1)) merge_pair_energy ;;
            when (nonzero (Z.land vflag 3)) merge_pair_virial)
     | THR_BOND => merge_bond
     | THR_ANGLE => merge_angle
     | THR_DIHEDRAL => merge_dihedral
     | THR_IMPROPER => merge_improper
     | THR_KSPACE => merge_kspace
     | THR_OTHER _ => skip
     end ;;
     when (thr_style_eqb thr_style last_omp_style)
       (sync_threads ;;
        do_reduce_force nall nthreads 3 tid ;;
        fun s =>
          match LAMMPS.torque (lmp s) with
          | Some t => do_reduce_torque t nall nthreads 3 tid s
          | None => s
          end)) s0.

(** Modelled from the spec: the callers of [reduce_thr] are not among
    the sources.  One reduction step of a category: every thread of the
    team calls [reduce_thr] on its own accumulator.  The updates of the
    shared totals sit in a critical section, so they happen one thread
    after the other; [threads] lists the accumulators in that order.  The
    result is the shared state and the accumulators after the step. *)
Fixpoint reduce_step (thr_style last_omp_style : thr_style_t)
    (eflag vflag : Z) (threads : list ThrData.t)
    (l : LAMMPS.t) (log : list call)
    : LAMMPS.t * list ThrData.t * list call :=
  match threads with
  | [] => (l, [], log)
  | d :: rest =>
      let s := reduce_thr thr_style last_omp_style eflag vflag (mkR l d log) in
      let '(l', rest', log') :=
        reduce_step thr_style last_omp_style eflag vflag rest (lmp s) (calls s) in
      (l', cur s :: rest', log')
  end.

(** The two halves of the body of [reduce_thr], named for the proofs:
    the [switch] over the category, and the [if] that follows it. *)
Definition category_part (thr_style : thr_style_t) (eflag vflag : Z)
    : rstate -> rstate :=
  fun s0 =>
    let nlocal := LAMMPS.nlocal (lmp s0) in
    let nghost := LAMMPS.nghost (lmp s0) in
    let nfirst := LAMMPS.nfirst (lmp s0) in
    let x := LAMMPS.x (lmp s0) in
    match thr_style with
    | THR_PAIR =>
        when (nonzero (Pair.vflag_fdotr (LAMMPS.pair (lmp s0))))
          (sync_threads ;;
           ifelse (LAMMPS.includegroup (lmp s0) =? 0)%Z
             (do_virial_fdotr x nlocal nghost (-1))
             (do_virial_fdotr x nlocal nghost nfirst)) ;;
        when (nonzero (Z.lor eflag vflag))
          (sync_threads ;;
           when (nonzero (Z.land eflag 1)) merge_pair_energy ;;
           when (nonzero (Z.land vflag 3)) merge_pair_virial)
    | THR_BOND => merge_bond
    | THR_ANGLE => merge_angle
    | THR_DIHEDRAL => merge_dihedral
    | THR_IMPROPER => merge_improper
    | THR_KSPACE => merge_kspace
    | THR_OTHER _ => skip
    end s0.

Definition force_part (thr_style last_omp_style : thr_style_t)
    (nall nthreads tid : Z) : rstate -> rstate :=
  when (thr_style_eqb thr_style last_omp_style)
    (sync_threads ;;
     do_reduce_force nall nthreads 3 tid ;;
     fun s =>
       match LAMMPS.torque (lmp s) with
       | Some t => do_reduce_torque t nall nthreads 3 tid s
       | None => s
       end).

End Reduce.

(** * Properties *)

(** ** Concrete inputs used by the examples *)

(** A thread accumulator with every total at zero and both slices at the
    start of the shared buffers. *)
Definition thr_zero (tid : Z) : ThrData.t :=
  ThrData.mk tid 0 0 0 0 0 0 0 V6zero V6zero V6zero V6zero V6zero V6zero 0 0.

(** A tally state with empty buffers. *)
Definition state_zero (tid : Z) : state :=
  mkState (thr_zero tid) (fun _ => 0) (fun _ => V6zero).

(** A pair style with every accounting flag set and totals at zero. *)
Definition pair_all_on : Pair.t := Pair.mk 1 1 1 1 1 1 0 0 0 V6zero.

(** A dihedral style with every accounting flag set. *)
Definition dihedral_all_on : Dihedral.t := Dihedral.mk 1 1 1 1 1 1 0 V6zero.

(** A tensor whose six components are all 1. *)
Definition V6ones : V6 := mkV6 1 1 1 1 1 1.

(** ** Vocabulary of the statements *)

(** The ownership test as a weight: 1 for a local atom, 0 for a ghost. *)
Definition owned (i nlocal : Z) : R := if (i <? nlocal)%Z then 1 else 0.

(** [x] if the cell [a] is the cell [b], nothing otherwise. *)
Definition at_cell (a b : Z) (x : R) : R := if (a =? b)%Z then x else 0.

(** The same for a tensor. *)
Definition at_cell6 (a b : Z) (v : V6) : V6 := if (a =? b)%Z then v else V6zero.

(** A statement of the energy side: it leaves the thread's pair virial,
    its stress slice and the stress buffer alone. *)
Definition energy_only (c : cmd) : Prop :=
  forall t : state,
    ThrData.virial_pair (thr (c t)) = ThrData.virial_pair (thr t) /\
    ThrData._vatom (thr (c t)) = ThrData._vatom (thr t) /\
    vatom (c t) = vatom t.

(** The calls of [data_reduce_thr] among the calls of a log. *)
Definition data_reduce_calls (log : list call) : list call :=
  filter (fun c => match c with
                   | call_data_reduce_thr _ _ _ _ _ => true
                   | _ => false
                   end) log.

(** The accumulator of a thread as it stands when [reduce_thr] merges the
    pair totals: when [pair->vflag_fdotr] is set, [virial_fdotr_compute]
    has updated it first. *)
Definition at_merge
    (virial_fdotr_compute : array -> Z -> Z -> Z -> ThrData.t -> ThrData.t)
    (l : LAMMPS.t) (d : ThrData.t) : ThrData.t :=
  if nonzero (Pair.vflag_fdotr (LAMMPS.pair l)) then
    virial_fdotr_compute (LAMMPS.x l) (LAMMPS.nlocal l) (LAMMPS.nghost l)
      (if (LAMMPS.includegroup l =? 0)%Z then (-1)%Z else LAMMPS.nfirst l) d
  else d.

(** The sum over the threads of a scalar of their accumulators. *)
Definition sumR (g : ThrData.t -> R) (threads : list ThrData.t) : R :=
  fold_right (fun d acc => g d + acc) 0 threads.

(** The sum over the threads of a tensor of their accumulators. *)
Definition sum6 (g : ThrData.t -> V6) (threads : list ThrData.t) : V6 :=
  fold_right (fun d acc => V6add (g d) acc) V6zero threads.

(** A shared state with every total at zero, no torque array, three
    local atoms and one ghost, two threads. *)
Definition lmp_zero : LAMMPS.t :=
  LAMMPS.mk 3 1 0 (fun _ => 0) (fun _ => 0) None 2 0
    (Pair.mk 0 0 0 0 0 0 0 0 0 V6zero) (Bond.mk 0 V6zero) (Angle.mk 0 V6zero)
    (Dihedral.mk 0 0 0 0 0 0 0 V6zero) (Improper.mk 0 V6zero)
    (KSpace.mk 0 V6zero).

(** An accumulator whose van der Waals energy is 1. *)
Definition thr_vdwl_one : ThrData.t :=
  ThrData.set_eng_vdwl 1 (thr_zero 0).

(** Stand-ins for the two absent functions in the examples: no change. *)
Definition fdotr_none : array -> Z -> Z -> Z -> ThrData.t -> ThrData.t :=
  fun _ _ _ _ d => d.
Definition data_reduce_none : array -> Z -> Z -> Z -> Z -> array :=
  fun a _ _ _ _ => a.

(** A statement confined to the atoms of a list: it keeps the thread id
    and both slice pointers, and outside the per-atom cells of the listed
    atoms it leaves both buffers as they are. *)
Definition confined (atoms : list Z) (c : cmd) : Prop :=
  forall s : state,
    ThrData.tid (thr (c s)) = ThrData.tid (thr s) /\
    ThrData._eatom (thr (c s)) = ThrData._eatom (thr s) /\
    ThrData._vatom (thr (c s)) = ThrData._vatom (thr s) /\
    (forall a : Z,
       (forall i : Z, In i atoms -> a <> eatom_slot (thr s) i) ->
       eatom (c s) a = eatom s a) /\
    (forall a : Z,
       (forall i : Z, In i atoms -> a <> vatom_slot (thr s) i) ->
       vatom (c s) a = vatom s a).

(** A statement of the virial side: it leaves the thread's energies, its
    energy slice and the energy buffer alone. *)
Definition virial_only (c : cmd) : Prop :=
  forall t : state,
    ThrData.eng_vdwl (thr (c t)) = ThrData.eng_vdwl (thr t) /\
    ThrData.eng_coul (thr (c t)) = ThrData.eng_coul (thr t) /\
    ThrData._eatom (thr (c t)) = ThrData._eatom (thr t) /\
    eatom (c t) = eatom t.

(** The accumulator with the three pair totals blanked: what a tally of
    the pair family must leave as it is. *)
Definition outside_pair (d : ThrData.t) : ThrData.t :=
  ThrData.set_eng_vdwl 0 (ThrData.set_eng_coul 0
    (ThrData.set_virial_pair V6zero d)).

(** The accumulator with the two totals of the dihedral tally blanked. *)
Definition outside_dihedral (d : ThrData.t) : ThrData.t :=
  ThrData.set_eng_bond 0 (ThrData.set_virial_dihed V6zero d).

(** The outer product [del * f] as the six components of a virial. *)
Definition outer6 (del f : V3) : V6 :=
  mkV6 (c0 del * c0 f) (c1 del * c1 f) (c2 del * c2 f)
       (c0 del * c1 f) (c0 del * c2 f) (c1 del * c2 f).

(** A pair style that asks for the per-atom virial only. *)
Definition pair_vatom_only : Pair.t := Pair.mk 0 0 0 1 0 1 0 0 0 V6zero.

(** A pair style that asks for the global energy and virial only. *)
Definition pair_global_only : Pair.t := Pair.mk 1 1 0 1 1 0 0 0 0 V6zero.

(** What a tally adds: an amount for each total a tally can reach, and
    an amount for each atom of the two per-atom slices. *)
Record delta : Type := mkDelta {
  d_vdwl : R;
  d_coul : R;
  d_bond : R;
  d_vpair : V6;
  d_vdihed : V6;
  d_eatom : Z -> R;
  d_vatom : Z -> V6
}.

Definition delta_zero : delta :=
  mkDelta 0 0 0 V6zero V6zero (fun _ => 0) (fun _ => V6zero).

Definition delta_add (p q : delta) : delta :=
  mkDelta (d_vdwl p + d_vdwl q) (d_coul p + d_coul q) (d_bond p + d_bond q)
          (V6add (d_vpair p) (d_vpair q)) (V6add (d_vdihed p) (d_vdihed q))
          (fun i => d_eatom p i + d_eatom q i)
          (fun i => V6add (d_vatom p i) (d_vatom q i)).

(** The state [s] with the amounts of [p] added: the totals to the
    totals, the amount of atom [i] to the cell of atom [i] in the slice
    of the thread; the thread id and the slice pointers are kept. *)
Definition plus (p : delta) (s : state) : state :=
  let d := thr s in
  mkState
    (ThrData.mk (ThrData.tid d)
       (ThrData.eng_vdwl d + d_vdwl p) (ThrData.eng_coul d + d_coul p)
       (ThrData.eng_bond d + d_bond p) (ThrData.eng_angle d)
       (ThrData.eng_dihed d) (ThrData.eng_imprp d) (ThrData.eng_kspce d)
       (V6add (ThrData.virial_pair d) (d_vpair p)) (ThrData.virial_bond d)
       (ThrData.virial_angle d) (V6add (ThrData.virial_dihed d) (d_vdihed p))
       (ThrData.virial_imprp d) (ThrData.virial_kspce d)
       (ThrData._eatom d) (ThrData._vatom d))
    (fun a => eatom s a + d_eatom p (a - ThrData._eatom d))
    (fun a => V6add (vatom s a) (d_vatom p (a - ThrData._vatom d))).

(** A statement that only adds: whatever the state, it adds the same
    amounts. *)
Definition additive (c : cmd) : Prop :=
  exists p : delta, forall s : state, c s = plus p s.

(** The calls of the tally operations of [ThrOMP]. *)
Inductive tally_op : cmd -> Prop :=
| op_e_tally_thr pair i j nlocal newton_pair evdwl ecoul :
    tally_op (e_tally_thr pair i j nlocal newton_pair evdwl ecoul)
| op_v_tally_thr pair i j nlocal newton_pair v :
    tally_op (v_tally_thr pair i j nlocal newton_pair v)
| op_ev_tally_thr pair i j nlocal newton_pair evdwl ecoul fpair delx dely delz :
    tally_op (ev_tally_thr pair i j nlocal newton_pair evdwl ecoul fpair
                delx dely delz)
| op_ev_tally_xyz_thr pair i j nlocal newton_pair evdwl ecoul fx fy fz
    delx dely delz :
    tally_op (ev_tally_xyz_thr pair i j nlocal newton_pair evdwl ecoul fx fy fz
                delx dely delz)
| op_ev_tally3_thr pair i j k evdwl ecoul fj fk drji drki :
    tally_op (ev_tally3_thr pair i j k evdwl ecoul fj fk drji drki)
| op_ev_tally4_thr pair i j k m evdwl fi fj fk drim drjm drkm :
    tally_op (ev_tally4_thr pair i j k m evdwl fi fj fk drim drjm drkm)
| op_ev_tally_list_thr pair n l ecoul v :
    tally_op (ev_tally_list_thr pair n l ecoul v)
| op_ev_tally_thr_dihedral dihed i1 i2 i3 i4 nlocal newton_bond edihedral
    f1 f3 f4 vb1x vb1y vb1z vb2x vb2y vb2z vb3x vb3y vb3z :
    tally_op (ev_tally_thr_dihedral dihed i1 i2 i3 i4 nlocal newton_bond
                edihedral f1 f3 f4 vb1x vb1y vb1z vb2x vb2y vb2z vb3x vb3y vb3z)
| op_v_tally2_thr i j fpair drij : tally_op (v_tally2_thr i j fpair drij)
| op_v_tally3_thr i j k fi fj drik drjk :
    tally_op (v_tally3_thr i j k fi fj drik drjk)
| op_v_tally4_thr i j k m fi fj fk drim drjm drkm :
    tally_op (v_tally4_thr i j k m fi fj fk drim drjm drkm).

(** The sum of a list of tensors. *)
Definition V6sum (l : list V6) : V6 := fold_right V6add V6zero l.

(** ** Basic facts *)

Lemma V6_eq (a b : V6) :
  v0 a = v0 b -> v1 a = v1 b -> v2 a = v2 b ->
  v3 a = v3 b -> v4 a = v4 b -> v5 a = v5 b -> a = b.
Proof.
  destruct a, b; cbn; intros; subst; reflexivity.
Qed.

Lemma nonzero_true (z : Z) : nonzero z = true <-> z <> 0%Z.
Proof.
  unfold nonzero. destruct (Z.eqb_spec z 0); cbn; split; intros; congruence.
Qed.

Lemma thr_style_eqb_eq (a b : thr_style_t) :
  thr_style_eqb a b = true <-> a = b.
Proof.
  destruct a, b; cbn; split; intros H; try congruence.
  - apply Z.eqb_eq in H. congruence.
  - apply Z.eqb_eq. congruence.
Qed.

(** An accumulation into one cell of a buffer, seen from any cell. *)
Lemma upd_add (m : Z -> R) (k : Z) (x : R) (a : Z) :
  upd m k (m k + x) a = m a + at_cell a k x.
Proof.
  unfold upd, at_cell; destruct (Z.eqb_spec a k); subst; lra.
Qed.

Lemma V6add_zero (w : V6) : V6add w V6zero = w.
Proof. apply V6_eq; cbn; lra. Qed.

Lemma upd_v_tally (m : Z -> V6) (k : Z) (w : V6) (a : Z) :
  upd m k (v_tally (m k) w) a = V6add (m a) (at_cell6 a k w).
Proof.
  unfold upd, at_cell6; destruct (Z.eqb_spec a k); subst;
    [reflexivity | symmetry; apply V6add_zero].
Qed.

Lemma upd_v_tally_scale (m : Z -> V6) (k : Z) (c : R) (w : V6) (a : Z) :
  upd m k (v_tally_scale (m k) c w) a = V6add (m a) (at_cell6 a k (V6scale c w)).
Proof.
  unfold upd, at_cell6; destruct (Z.eqb_spec a k); subst;
    [reflexivity | symmetry; apply V6add_zero].
Qed.

(** Evaluation of the statement combinators, of the primitive updates and
    of the field accesses, and of nothing else: the arithmetic and the
    cell updates stay as they are written. *)
Ltac run_cmd :=
  lazy beta iota zeta delta
    [when ifelse andthen skip on_thr
     add_eng_vdwl add_eng_coul add_eng_bond
     tally_virial_pair tally_virial_pair_scale
     tally_virial_dihed tally_virial_dihed_scale
     add_eatom tally_vatom tally_vatom_scale eatom_slot vatom_slot
     thr eatom vatom orb
     ThrData.set_eng_vdwl ThrData.set_eng_coul ThrData.set_eng_bond
     ThrData.set_virial_pair ThrData.set_virial_dihed
     ThrData.set_eatom ThrData.set_vatom ThrData.get_tid
     ThrData.tid ThrData.eng_vdwl ThrData.eng_coul ThrData.eng_bond
     ThrData.eng_angle ThrData.eng_dihed ThrData.eng_imprp ThrData.eng_kspce
     ThrData.virial_pair ThrData.virial_bond ThrData.virial_angle
     ThrData.virial_dihed ThrData.virial_imprp ThrData.virial_kspce
     ThrData._eatom ThrData._vatom].

(** Case analysis on every ownership test of the goal. *)
Ltac split_tests :=
  repeat match goal with
         | |- context [(?a <? ?b)%Z] => destruct (a <? b)%Z eqn:?
         end; cbn.

(** Equality of two tensors, component by component. *)
Ltac by_components :=
  apply V6_eq; unfold v_tally, v_tally_scale, V6scale, V6add, V6zero, owned;
  cbn; lra.

(** ** Setup of the per-thread slices *)

(** C10.  [ev_setup_thr] stores [eatom + tid*nall] in the per-atom energy
    slice of the accumulator exactly when bit 2 of [eflag] is set, and
    [vatom + tid*nall] in the per-atom stress slice exactly when bit 4 of
    [vflag] is set; a slice whose flag is not set keeps its value.  The
    totals of the accumulator and the buffers are not touched. *)
Theorem ev_setup_thr_slices :
  forall (eflag vflag nall eatom_base vatom_base : Z) (s : state),
    let s' := ev_setup_thr eflag vflag nall eatom_base vatom_base s in
    let offset := (ThrData.tid (thr s) * nall)%Z in
    ThrData._eatom (thr s') =
      (if nonzero (Z.land eflag 2) then (eatom_base + offset)%Z
       else ThrData._eatom (thr s)) /\
    ThrData._vatom (thr s') =
      (if nonzero (Z.land vflag 4) then (vatom_base + offset)%Z
       else ThrData._vatom (thr s)) /\
    ThrData.set_eatom (ThrData._eatom (thr s))
      (ThrData.set_vatom (ThrData._vatom (thr s)) (thr s')) = thr s /\
    eatom s' = eatom s /\ vatom s' = vatom s.
Proof.
  intros eflag vflag nall eb vb [d ea va]; unfold ev_setup_thr.
  destruct d; run_cmd; unfold ThrData.get_tid; cbn.
  destruct (nonzero (Z.land eflag 2)), (nonzero (Z.land vflag 4)); cbn;
    repeat split; reflexivity.
Qed.

(** ** Pairwise tally *)

(** The pairwise tally is [e_tally_thr] followed by [v_tally_thr] on the
    virial built from the separation and the force, each under its
    [either] flag. *)
Lemma ev_tally_thr_unfold :
  forall (pair : Pair.t) (i j nlocal newton_pair : Z)
         (evdwl ecoul fpair delx dely delz : R) (s : state),
    nonzero (Pair.eflag_either pair) = true ->
    nonzero (Pair.vflag_either pair) = true ->
    ev_tally_thr pair i j nlocal newton_pair evdwl ecoul fpair delx dely delz s =
      v_tally_thr pair i j nlocal newton_pair
        (mkV6 (delx * delx * fpair) (dely * dely * fpair) (delz * delz * fpair)
              (delx * dely * fpair) (delx * delz * fpair) (dely * delz * fpair))
        (e_tally_thr pair i j nlocal newton_pair evdwl ecoul s).
Proof.
  intros pair i j nlocal newton_pair evdwl ecoul fpair delx dely delz s He Hv.
  unfold ev_tally_thr. rewrite He, Hv. reflexivity.
Qed.

(** C3.  With global energy accounting on, [e_tally_thr] adds, in newton
    mode, the full [evdwl] and [ecoul] to the thread totals whatever [i]
    and [j] are, and in half mode half of each, once for each of [i] and
    [j] that is below [nlocal].  With global virial accounting on,
    [v_tally_thr] does the same with the six components of [v].  Hence a
    pair of two ghosts leaves the totals as they are in half mode and
    receives the full value in newton mode. *)
Theorem pair_tally_global :
  forall (pair : Pair.t) (i j nlocal newton_pair : Z) (evdwl ecoul : R)
         (v : V6) (s : state),
    let se := e_tally_thr pair i j nlocal newton_pair evdwl ecoul s in
    let sv := v_tally_thr pair i j nlocal newton_pair v s in
    (nonzero (Pair.eflag_global pair) = true ->
       (nonzero newton_pair = true ->
          ThrData.eng_vdwl (thr se) = ThrData.eng_vdwl (thr s) + evdwl /\
          ThrData.eng_coul (thr se) = ThrData.eng_coul (thr s) + ecoul) /\
       (nonzero newton_pair = false ->
          ThrData.eng_vdwl (thr se) =
            ThrData.eng_vdwl (thr s)
            + owned i nlocal * (0.5 * evdwl) + owned j nlocal * (0.5 * evdwl) /\
          ThrData.eng_coul (thr se) =
            ThrData.eng_coul (thr s)
            + owned i nlocal * (0.5 * ecoul) + owned j nlocal * (0.5 * ecoul)) /\
       (nonzero newton_pair = false -> (nlocal <= i)%Z -> (nlocal <= j)%Z ->
          ThrData.eng_vdwl (thr se) = ThrData.eng_vdwl (thr s) /\
          ThrData.eng_coul (thr se) = ThrData.eng_coul (thr s))) /\
    (nonzero (Pair.vflag_global pair) = true ->
       (nonzero newton_pair = true ->
          ThrData.virial_pair (thr sv) = V6add (ThrData.virial_pair (thr s)) v) /\
       (nonzero newton_pair = false ->
          ThrData.virial_pair (thr sv) =
            V6add (V6add (ThrData.virial_pair (thr s))
                         (V6scale (owned i nlocal) (V6scale 0.5 v)))
                  (V6scale (owned j nlocal) (V6scale 0.5 v))) /\
       (nonzero newton_pair = false -> (nlocal <= i)%Z -> (nlocal <= j)%Z ->
          ThrData.virial_pair (thr sv) = ThrData.virial_pair (thr s))).
Proof.
  intros pair i j nlocal newton_pair evdwl ecoul v [d ea va] se sv.
  subst se sv; unfold e_tally_thr, v_tally_thr.
  split; intros Hg; rewrite Hg; (split; [| split]).
  - intros Hn; rewrite Hn.
    destruct (nonzero (Pair.eflag_atom pair)); run_cmd; split; reflexivity.
  - intros Hn; rewrite Hn; unfold owned.
    destruct (nonzero (Pair.eflag_atom pair)), (i <? nlocal)%Z, (j <? nlocal)%Z;
      run_cmd; split; lra.
  - intros Hn Hi Hj; rewrite Hn.
    apply Z.ltb_ge in Hi; apply Z.ltb_ge in Hj; rewrite Hi, Hj.
    destruct (nonzero (Pair.eflag_atom pair)); run_cmd; split; reflexivity.
  - intros Hn; rewrite Hn.
    destruct (nonzero (Pair.vflag_atom pair)); run_cmd; reflexivity.
  - intros Hn; rewrite Hn; unfold owned.
    destruct (nonzero (Pair.vflag_atom pair)), (i <? nlocal)%Z, (j <? nlocal)%Z;
      run_cmd; by_components.
  - intros Hn Hi Hj; rewrite Hn.
    apply Z.ltb_ge in Hi; apply Z.ltb_ge in Hj; rewrite Hi, Hj.
    destruct (nonzero (Pair.vflag_atom pair)); run_cmd; reflexivity.
Qed.

(** An instance of C3: two ghosts (atoms 5 and 6 of which 4 are local),
    in half mode and in newton mode. *)
Lemma pair_tally_global_witness :
  let se0 := e_tally_thr pair_all_on 5 6 4 0 1 1 (state_zero 0) in
  let se1 := e_tally_thr pair_all_on 5 6 4 1 1 1 (state_zero 0) in
  let sv0 := v_tally_thr pair_all_on 5 6 4 0 V6ones (state_zero 0) in
  ThrData.eng_vdwl (thr se0) = 0 /\ ThrData.eng_vdwl (thr se1) = 0 + 1 /\
  ThrData.virial_pair (thr sv0) = V6zero.
Proof.
  pose proof (pair_tally_global pair_all_on 5 6 4 0 1 1 V6ones (state_zero 0))
    as [He0 Hv0].
  pose proof (pair_tally_global pair_all_on 5 6 4 1 1 1 V6ones (state_zero 0))
    as [He1 _].
  destruct (He0 eq_refl) as (_ & _ & G0).
  destruct (He1 eq_refl) as (N1 & _).
  destruct (Hv0 eq_refl) as (_ & _ & V0).
  split; [| split].
  - apply (G0 eq_refl); lia.
  - apply (N1 eq_refl).
  - apply (V0 eq_refl); lia.
Defined.

(** C4, as stated, fails: in newton mode the half share of a ghost is
    written too.  Atom 1 is a ghost ([nlocal] is 1), the pair energy is
    1, and the per-atom energy of atom 1 goes from 0 to one half. *)
Lemma e_tally_thr_newton_credits_ghost :
  let s := state_zero 0 in
  let s' := e_tally_thr pair_all_on 0 1 1 1 1 0 s in
  (1 <? 1)%Z = false /\
  eatom s (eatom_slot (thr s) 1) = 0 /\
  eatom s' (eatom_slot (thr s) 1) = 0.5 /\
  eatom s' (eatom_slot (thr s) 1) <> eatom s (eatom_slot (thr s) 1).
Proof.
  cbn; unfold upd; cbn. repeat split; try reflexivity; try lra.
Qed.

(** C4, amended.  With per-atom energy accounting on, [e_tally_thr]
    splits [evdwl + ecoul] in two equal halves, whatever the newton flag;
    the half of [i] is added to the per-atom energy cell of [i] exactly
    when the newton flag is set or [i < nlocal], likewise for [j], and no
    other cell changes. *)
Theorem e_tally_thr_per_atom :
  forall (pair : Pair.t) (i j nlocal newton_pair : Z) (evdwl ecoul : R)
         (s : state),
    nonzero (Pair.eflag_atom pair) = true ->
    let s' := e_tally_thr pair i j nlocal newton_pair evdwl ecoul s in
    let epairhalf := 0.5 * (evdwl + ecoul) in
    let credited (a : Z) := nonzero newton_pair || (a <? nlocal)%Z in
    epairhalf + epairhalf = evdwl + ecoul /\
    forall a : Z,
      eatom s' a =
        eatom s a
        + (if credited i then at_cell a (eatom_slot (thr s) i) epairhalf else 0)
        + (if credited j then at_cell a (eatom_slot (thr s) j) epairhalf else 0).
Proof.
  intros pair i j nlocal newton_pair evdwl ecoul [d ea va] Ha s' half credited.
  subst s' half credited; split; [lra |].
  intros a; unfold e_tally_thr; rewrite Ha.
  destruct (nonzero (Pair.eflag_global pair)), (nonzero newton_pair);
    run_cmd; split_tests; rewrite ?upd_add; lra.
Qed.

(** An instance of the amended C4: a local atom 0 and a ghost atom 1 in
    half mode; only atom 0 is credited. *)
Lemma e_tally_thr_per_atom_witness :
  let s := state_zero 0 in
  let s' := e_tally_thr pair_all_on 0 1 1 0 1 1 s in
  eatom s' 0 = 0 + at_cell 0 0 (0.5 * (1 + 1)) + 0 /\
  eatom s' 1 = 0 + at_cell 1 0 (0.5 * (1 + 1)) + 0.
Proof.
  pose proof (proj2 (e_tally_thr_per_atom pair_all_on 0 1 1 0 1 1
                       (state_zero 0) eq_refl)) as H.
  split; [exact (H 0%Z) | exact (H 1%Z)].
Defined.

(** ** Triplet and quadruplet tallies *)

(** C8.  With per-atom energy accounting on, [ev_tally3_thr] adds the
    third share of [evdwl + ecoul] to the per-atom energy cell of each of
    [i], [j], [k], and [ev_tally4_thr] the quarter share of [evdwl] to
    the cell of each of [i], [j], [k], [m]; neither takes [nlocal], so no
    ownership test applies; no other cell changes; the three shares add
    up to [evdwl + ecoul] and the four shares to [evdwl]. *)
Theorem tally3_tally4_per_atom_energy :
  forall (pair : Pair.t) (i j k m : Z) (evdwl ecoul : R)
         (fi fj fk drji drki drim drjm drkm : V3) (s : state),
    nonzero (Pair.eflag_either pair) = true ->
    nonzero (Pair.eflag_atom pair) = true ->
    let s3 := ev_tally3_thr pair i j k evdwl ecoul fj fk drji drki s in
    let s4 := ev_tally4_thr pair i j k m evdwl fi fj fk drim drjm drkm s in
    let epairthird := THIRD * (evdwl + ecoul) in
    let epairfourth := 0.25 * evdwl in
    (forall a : Z,
       eatom s3 a =
         eatom s a
         + at_cell a (eatom_slot (thr s) i) epairthird
         + at_cell a (eatom_slot (thr s) j) epairthird
         + at_cell a (eatom_slot (thr s) k) epairthird) /\
    epairthird + epairthird + epairthird = evdwl + ecoul /\
    (forall a : Z,
       eatom s4 a =
         eatom s a
         + at_cell a (eatom_slot (thr s) i) epairfourth
         + at_cell a (eatom_slot (thr s) j) epairfourth
         + at_cell a (eatom_slot (thr s) k) epairfourth
         + at_cell a (eatom_slot (thr s) m) epairfourth) /\
    epairfourth + epairfourth + epairfourth + epairfourth = evdwl.
Proof.
  intros pair i j k m evdwl ecoul fi fj fk drji drki drim drjm drkm
         [d ea va] He Ha s3 s4 third fourth.
  subst s3 s4 third fourth.
  split; [| split; [unfold THIRD; lra | split; [| lra]]]; intros a.
  - unfold ev_tally3_thr; rewrite He, Ha.
    destruct (nonzero (Pair.eflag_global pair)),
             (nonzero (Pair.vflag_either pair)),
             (nonzero (Pair.vflag_global pair)),
             (nonzero (Pair.vflag_atom pair));
      run_cmd; rewrite !upd_add; reflexivity.
  - unfold ev_tally4_thr; rewrite He, Ha.
    destruct (nonzero (Pair.eflag_global pair)),
             (nonzero (Pair.vflag_atom pair));
      run_cmd; rewrite !upd_add; reflexivity.
Qed.

(** An instance of C8: atoms 0, 1, 2 (and 3) with energies 1 and 2. *)
Lemma tally3_tally4_per_atom_energy_witness :
  let s := state_zero 0 in
  let z := mkV3 0 0 0 in
  eatom (ev_tally3_thr pair_all_on 0 1 2 1 2 z z z z s) 1 =
    0 + at_cell 1 0 (THIRD * (1 + 2)) + at_cell 1 1 (THIRD * (1 + 2))
    + at_cell 1 2 (THIRD * (1 + 2)).
Proof.
  intros s z.
  exact (proj1 (tally3_tally4_per_atom_energy pair_all_on 0 1 2 3 1 2
                  z z z z z z z z s eq_refl eq_refl) 1%Z).
Defined.

(** C6, as stated, fails.  Every flag is set and the virial has all its
    components at 1.  The quadruplet tally [ev_tally4_thr] never touches
    the thread's virial total: it stays at zero, which is not the total
    plus any non-zero share of the virial.  The triplet tally
    [ev_tally3_thr] adds the virial to the total as it is, not a third
    of it. *)
Lemma ev_tally4_thr_no_global_virial :
  let s := state_zero 0 in
  let u := mkV3 1 1 1 in
  let z := mkV3 0 0 0 in
  let s4 := ev_tally4_thr pair_all_on 0 1 2 3 1 u z z u z z s in
  let s3 := ev_tally3_thr pair_all_on 0 1 2 1 0 u z u z s in
  (virial4 u z z u z z = V6ones /\
   nonzero (Pair.vflag_global pair_all_on) = true /\
   ThrData.virial_pair (thr s4) = ThrData.virial_pair (thr s) /\
   forall c : R, c <> 0 ->
     ThrData.virial_pair (thr s4) <>
       V6add (ThrData.virial_pair (thr s))
             (V6scale c (virial4 u z z u z z))) /\
  (virial3 u z u z = V6ones /\
   ThrData.virial_pair (thr s3) = V6ones /\
   ThrData.virial_pair (thr s3) <>
     V6add (ThrData.virial_pair (thr s))
           (V6scale THIRD (virial3 u z u z))).
Proof.
  cbn. repeat split; try (apply V6_eq; cbn; lra).
  - intros c Hc H. apply (f_equal v0) in H. cbn in H. lra.
  - intros H. apply (f_equal v0) in H. unfold THIRD in H. cbn in H. lra.
Qed.

(** C6, amended.  The triplet tally [ev_tally3_thr], when [vflag_either]
    is set, adds the virial [drji*fj + drki*fk] unscaled to the thread's
    pair virial total exactly when [vflag_global] is set, and one third
    of it to the per-atom stress cell of each of [i], [j], [k] exactly
    when [vflag_atom] is set; with [vflag_either] off it changes neither.
    The quadruplet tally [ev_tally4_thr] adds one quarter of
    [drim*fi + drjm*fj + drkm*fk] to the per-atom stress cell of each of
    [i], [j], [k], [m] exactly when [vflag_atom] is set, and never
    changes the thread's pair virial total, whatever the flags.  No other
    cell changes. *)
Theorem tally3_tally4_virial :
  forall (pair : Pair.t) (i j k m : Z) (evdwl ecoul : R)
         (fi fj fk drji drki drim drjm drkm : V3) (s : state),
    let s3 := ev_tally3_thr pair i j k evdwl ecoul fj fk drji drki s in
    let s4 := ev_tally4_thr pair i j k m evdwl fi fj fk drim drjm drkm s in
    let w3 := virial3 fj fk drji drki in
    let w4 := virial4 fi fj fk drim drjm drkm in
    let either := nonzero (Pair.vflag_either pair) in
    let global := nonzero (Pair.vflag_global pair) in
    let atom := nonzero (Pair.vflag_atom pair) in
    ThrData.virial_pair (thr s3) =
      (if either && global
       then V6add (ThrData.virial_pair (thr s)) w3
       else ThrData.virial_pair (thr s)) /\
    (forall a : Z,
       vatom s3 a =
         if either && atom
         then V6add (V6add (V6add (vatom s a)
                (at_cell6 a (vatom_slot (thr s) i) (V6scale THIRD w3)))
                (at_cell6 a (vatom_slot (thr s) j) (V6scale THIRD w3)))
                (at_cell6 a (vatom_slot (thr s) k) (V6scale THIRD w3))
         else vatom s a) /\
    ThrData.virial_pair (thr s4) = ThrData.virial_pair (thr s) /\
    (forall a : Z,
       vatom s4 a =
         if atom
         then V6add (V6add (V6add (V6add (vatom s a)
                (at_cell6 a (vatom_slot (thr s) i) (V6scale 0.25 w4)))
                (at_cell6 a (vatom_slot (thr s) j) (V6scale 0.25 w4)))
                (at_cell6 a (vatom_slot (thr s) k) (V6scale 0.25 w4)))
                (at_cell6 a (vatom_slot (thr s) m) (V6scale 0.25 w4))
         else vatom s a).
Proof.
  intros pair i j k m evdwl ecoul fi fj fk drji drki drim drjm drkm
         [d ea va] s3 s4 w3 w4 either global atom.
  subst s3 s4 w3 w4 either global atom.
  unfold ev_tally3_thr, ev_tally4_thr.
  set (w3 := virial3 fj fk drji drki).
  set (w4 := virial4 fi fj fk drim drjm drkm).
  clearbody w3 w4. destruct d.
  destruct (nonzero (Pair.eflag_either pair)),
           (nonzero (Pair.eflag_global pair)),
           (nonzero (Pair.eflag_atom pair)),
           (nonzero (Pair.vflag_either pair)),
           (nonzero (Pair.vflag_global pair)),
           (nonzero (Pair.vflag_atom pair));
    cbn [andb]; run_cmd;
    (split; [reflexivity | split; [| split; [reflexivity |]]]);
    intros a; rewrite ?upd_v_tally_scale, ?upd_v_tally; reflexivity.
Qed.

(** An instance of the amended C6, with only the per-atom virial asked
    for: the quadruplet of the atoms 0, 1, 2, 3 leaves the thread's
    virial total at zero and credits the cell of atom 2. *)
Lemma tally3_tally4_virial_witness :
  let s := state_zero 0 in
  let u := mkV3 1 1 1 in
  let z := mkV3 0 0 0 in
  let s4 := ev_tally4_thr pair_vatom_only 0 1 2 3 1 u z z u z z s in
  ThrData.virial_pair (thr s4) = V6zero /\
  vatom s4 2 =
    V6add (V6add (V6add (V6add V6zero
      (at_cell6 2 0 (V6scale 0.25 (virial4 u z z u z z))))
      (at_cell6 2 1 (V6scale 0.25 (virial4 u z z u z z))))
      (at_cell6 2 2 (V6scale 0.25 (virial4 u z z u z z))))
      (at_cell6 2 3 (V6scale 0.25 (virial4 u z z u z z))).
Proof.
  intros s u z s4.
  pose proof (tally3_tally4_virial pair_vatom_only 0 1 2 3 1 0 u z z z z u z z s)
    as (_ & _ & Hg & Ha).
  split; [exact Hg | exact (Ha 2%Z)].
Defined.

(** ** List tally *)

Lemma energy_only_skip : energy_only skip.
Proof. intros t; repeat split. Qed.

Lemma energy_only_andthen (c1 c2 : cmd) :
  energy_only c1 -> energy_only c2 -> energy_only (c1 ;; c2).
Proof.
  intros H1 H2 t; unfold andthen.
  destruct (H1 t) as (A1 & B1 & C1), (H2 (c1 t)) as (A2 & B2 & C2).
  repeat split; congruence.
Qed.

Lemma energy_only_when (b : bool) (c : cmd) :
  energy_only c -> energy_only (when b c).
Proof.
  intros H t; unfold when; destruct b; [apply H | repeat split].
Qed.

Lemma energy_only_add_eng_coul (x : R) : energy_only (add_eng_coul x).
Proof. intros [[] ea va]; repeat split. Qed.

Lemma energy_only_add_eatom (i : Z) (x : R) : energy_only (add_eatom i x).
Proof. intros [[] ea va]; repeat split. Qed.

Lemma energy_only_for_list (body : Z -> cmd) (l : list Z) :
  (forall j, energy_only (body j)) -> energy_only (for_list body l).
Proof.
  intros H; induction l as [| x l IH]; cbn [for_list].
  - apply energy_only_skip.
  - apply energy_only_andthen; [apply H | exact IH].
Qed.

Create HintDb frame.
#[local] Hint Resolve energy_only_skip energy_only_andthen energy_only_when
  energy_only_add_eng_coul energy_only_add_eatom energy_only_for_list : frame.

(** The loop [for (i...) v_tally(thr->_vatom[list[i]], w)] adds [w] to the
    cell of an atom once for each of its entries in the list. *)
Lemma for_list_tally_vatom (w : V6) (l : list Z) :
  forall (s : state),
    let s' := for_list (fun j => tally_vatom j w) l s in
    thr s' = thr s /\
    forall j : Z,
      vatom s' (vatom_slot (thr s) j) =
        V6add (vatom s (vatom_slot (thr s) j))
              (V6scale (INR (count_occ Z.eq_dec l j)) w).
Proof.
  induction l as [| x l IH]; intros s; cbn [for_list].
  - split; [reflexivity |]. intros j; unfold skip; cbn. by_components.
  - unfold andthen. destruct (IH (tally_vatom x w s)) as [Ht Hv].
    cbn zeta in *. split; [rewrite Ht; reflexivity |].
    intros j. change (thr (tally_vatom x w s)) with (thr s) in Hv.
    rewrite Hv. unfold tally_vatom; cbn [vatom thr].
    rewrite upd_v_tally. unfold at_cell6, vatom_slot.
    cbn [count_occ]. destruct (Z.eq_dec x j) as [-> | Hne].
    + rewrite Z.eqb_refl, S_INR. by_components.
    + destruct (Z.eqb_spec (ThrData._vatom (thr s) + j)
                           (ThrData._vatom (thr s) + x)); [lia |].
      by_components.
Qed.

Lemma V6sum_constant (w : V6) (l : list Z) :
  V6sum (map (fun _ => w) l) = V6scale (INR (length l)) w.
Proof.
  induction l as [| x l IH].
  - cbn. by_components.
  - cbn [map length V6sum fold_right]. fold (V6sum (map (fun _ : Z => w) l)).
    rewrite IH, S_INR. by_components.
Qed.

(** The virial side of the list tally, after any statement of the energy
    side. *)
Lemma list_virial_after_energy (c : cmd) (v w : V6) (l : list Z) (t : state) :
  energy_only c ->
  let t' := (tally_virial_pair v ;; for_list (fun j => tally_vatom j w) l) (c t) in
  ThrData.virial_pair (thr t') = V6add (ThrData.virial_pair (thr t)) v /\
  forall j : Z,
    vatom t' (vatom_slot (thr t) j) =
      V6add (vatom t (vatom_slot (thr t) j))
            (V6scale (INR (count_occ Z.eq_dec l j)) w).
Proof.
  intros Hc. destruct (Hc t) as (Hvp & Hptr & Hbuf). unfold andthen.
  destruct (for_list_tally_vatom w l (tally_virial_pair v (c t))) as [Ht Hv].
  cbn zeta in *.
  assert (Hp : ThrData._vatom (thr (tally_virial_pair v (c t)))
               = ThrData._vatom (thr t)).
  { rewrite <- Hptr. destruct (c t) as [[] ? ?]; reflexivity. }
  split.
  - rewrite Ht, <- Hvp. destruct (c t) as [[] ? ?]; reflexivity.
  - intros j. specialize (Hv j). unfold vatom_slot in *.
    rewrite Hp in Hv. rewrite Hv.
    unfold tally_virial_pair, on_thr; cbn [vatom]. rewrite Hbuf. reflexivity.
Qed.

(** The same with each of the two statements of the virial side under
    its own flag. *)
Lemma list_virial_gated (c : cmd) (bg ba : bool) (v w : V6) (l : list Z)
    (t : state) :
  energy_only c ->
  let t' := (when bg (tally_virial_pair v) ;;
             when ba (for_list (fun j => tally_vatom j w) l)) (c t) in
  ThrData.virial_pair (thr t') =
    (if bg then V6add (ThrData.virial_pair (thr t)) v
     else ThrData.virial_pair (thr t)) /\
  forall j : Z,
    vatom t' (vatom_slot (thr t) j) =
      if ba
      then V6add (vatom t (vatom_slot (thr t) j))
                 (V6scale (INR (count_occ Z.eq_dec l j)) w)
      else vatom t (vatom_slot (thr t) j).
Proof.
  intros Hc. destruct (Hc t) as (Hvp & Hptr & Hbuf).
  destruct bg, ba; unfold andthen, when.
  - exact (list_virial_after_energy c v w l t Hc).
  - split; [| intros j; cbn; rewrite Hbuf; reflexivity].
    rewrite <- Hvp. destruct (c t) as [[] ? ?]; reflexivity.
  - destruct (for_list_tally_vatom w l (c t)) as [Ht Hv]. cbn zeta in *.
    split; [rewrite Ht; exact Hvp |].
    intros j. specialize (Hv j). unfold vatom_slot in *.
    rewrite Hptr in Hv. rewrite Hv, Hbuf. reflexivity.
  - split; [exact Hvp | intros j; rewrite Hbuf; reflexivity].
Qed.

(** C7, as stated, fails: the list tally is guarded by the virial flags.
    With the global virial asked for but not the per-atom one, the cell
    of the listed atom 0 stays at zero instead of growing by [v/2]; with
    the per-atom virial asked for but not the global one, the thread's
    total stays at zero instead of growing by [v]. *)
Lemma ev_tally_list_thr_flags_off :
  let s := state_zero 0 in
  let sg := ev_tally_list_thr pair_global_only 2 [0; 1]%Z 1 V6ones s in
  let sa := ev_tally_list_thr pair_vatom_only 2 [0; 1]%Z 1 V6ones s in
  (vatom sg 0 = vatom s 0 /\
   vatom sg 0 <> V6add (vatom s 0) (V6scale (1 / 2) V6ones)) /\
  (ThrData.virial_pair (thr sa) = ThrData.virial_pair (thr s) /\
   ThrData.virial_pair (thr sa) <> V6add (ThrData.virial_pair (thr s)) V6ones).
Proof.
  cbn. repeat split.
  - intros H. apply (f_equal v0) in H. cbn in H. lra.
  - intros H. change (V6zero = V6add V6zero V6ones) in H.
    apply (f_equal v0) in H. cbn in H. lra.
Qed.

(** C7, amended.  For a list tally of [n > 0] atoms with [vflag_either]
    set: the thread's pair virial total receives [v] unscaled exactly
    when [vflag_global] is set, and the per-atom stress cell of an atom
    receives [v/n] once for each of its entries in the list exactly when
    [vflag_atom] is set; with [vflag_either] off neither changes.  When
    the per-atom virial is tallied and the list holds [n] different
    atoms, every listed atom's stress grows by exactly [v/n], no other
    atom's stress changes, and the [n] increments add up to [v]. *)
Theorem ev_tally_list_thr_virial :
  forall (pair : Pair.t) (n : Z) (l : list Z) (ecoul : R) (v : V6)
         (s : state),
    (0 < n)%Z ->
    Z.of_nat (length l) = n ->
    let s' := ev_tally_list_thr pair n l ecoul v s in
    let share := V6scale (1 / IZR n) v in
    let cell (j : Z) := vatom_slot (thr s) j in
    let either := nonzero (Pair.vflag_either pair) in
    let global := nonzero (Pair.vflag_global pair) in
    let atom := nonzero (Pair.vflag_atom pair) in
    ThrData.virial_pair (thr s') =
      (if either && global
       then V6add (ThrData.virial_pair (thr s)) v
       else ThrData.virial_pair (thr s)) /\
    (forall j : Z,
       vatom s' (cell j) =
         if either && atom
         then V6add (vatom s (cell j))
                    (V6scale (INR (count_occ Z.eq_dec l j)) share)
         else vatom s (cell j)) /\
    (either && atom = true -> NoDup l ->
       (forall j : Z, In j l ->
          vatom s' (cell j) = V6add (vatom s (cell j)) share) /\
       (forall j : Z, ~ In j l -> vatom s' (cell j) = vatom s (cell j)) /\
       V6sum (map (fun j => V6sub (vatom s' (cell j)) (vatom s (cell j))) l)
         = v).
Proof.
  intros pair n l ecoul v s Hn Hlen s' share cell either global atom.
  assert (Hnz : IZR n <> 0) by (apply not_0_IZR; lia).
  assert (Hfirst : firstn (Z.to_nat n) l = l) by (apply firstn_all2; lia).
  assert (Hrun : ThrData.virial_pair (thr s') =
                   (if either && global
                    then V6add (ThrData.virial_pair (thr s)) v
                    else ThrData.virial_pair (thr s)) /\
                 forall j : Z,
                   vatom s' (cell j) =
                     if either && atom
                     then V6add (vatom s (cell j))
                            (V6scale (INR (count_occ Z.eq_dec l j)) share)
                     else vatom s (cell j)).
  { subst s' share cell either global atom. unfold ev_tally_list_thr.
    rewrite Hfirst.
    replace (1.0 / IZR n) with (1 / IZR n) by lra.
    set (E := when (nonzero (Pair.eflag_either pair))
                (when (nonzero (Pair.eflag_global pair)) (add_eng_coul ecoul) ;;
                 when (nonzero (Pair.eflag_atom pair))
                   (for_list (fun j => add_eatom j (ecoul / IZR n)) l))).
    assert (HE : energy_only E) by (subst E; auto 10 with frame).
    clearbody E.
    destruct (nonzero (Pair.vflag_either pair)); cbn [andb].
    - exact (list_virial_gated E (nonzero (Pair.vflag_global pair))
               (nonzero (Pair.vflag_atom pair)) v (V6scale (1 / IZR n) v)
               l s HE).
    - exact (list_virial_gated E false false v (V6scale (1 / IZR n) v)
               l s HE). }
  destruct Hrun as [Hglobal Hcells].
  split; [exact Hglobal | split; [exact Hcells |]].
  intros Hgate Hnd.
  assert (Hin : forall j : Z, In j l ->
            vatom s' (cell j) = V6add (vatom s (cell j)) share).
  { intros j Hj. rewrite Hcells, Hgate.
    rewrite (proj1 (NoDup_count_occ' Z.eq_dec l) Hnd j Hj).
    change (INR 1) with 1. by_components. }
  split; [exact Hin | split].
  - intros j Hj. rewrite Hcells, Hgate.
    rewrite (proj1 (count_occ_not_In Z.eq_dec l j) Hj).
    change (INR 0) with 0. by_components.
  - rewrite (map_ext_in _ (fun _ => share)).
    + rewrite V6sum_constant, INR_IZR_INZ, Hlen. subst share.
      apply V6_eq; unfold V6scale; cbn; field; exact Hnz.
    + intros j Hj. rewrite (Hin j Hj).
      apply V6_eq; unfold V6sub, V6add; cbn; lra.
Qed.

(** An instance of the amended C7: the list of the two atoms 0 and 1,
    with only the per-atom virial asked for. *)
Lemma ev_tally_list_thr_virial_witness :
  let s := state_zero 0 in
  let s' := ev_tally_list_thr pair_vatom_only 2 [0; 1]%Z 1 V6ones s in
  ThrData.virial_pair (thr s') = ThrData.virial_pair (thr s) /\
  vatom s' (vatom_slot (thr s) 1) =
    V6add (vatom s (vatom_slot (thr s) 1)) (V6scale (1 / IZR 2) V6ones).
Proof.
  intros s s'.
  pose proof (ev_tally_list_thr_virial pair_vatom_only 2 [0; 1]%Z 1 V6ones s
                ltac:(lia) eq_refl) as (Hg & _ & Hd).
  split; [exact Hg |].
  apply (proj1 (Hd eq_refl ltac:(repeat constructor; cbn; intuition lia))).
  cbn; tauto.
Defined.

(** ** Dihedral tally *)

Lemma count_local_range (i1 i2 i3 i4 nlocal : Z) :
  (0 <= count_local i1 i2 i3 i4 nlocal <= 4)%Z.
Proof.
  unfold count_local.
  destruct (i1 <? nlocal)%Z, (i2 <? nlocal)%Z, (i3 <? nlocal)%Z,
           (i4 <? nlocal)%Z; lia.
Qed.

(** [count_local] counts the atoms that pass the ownership test. *)
Lemma count_local_owned (i1 i2 i3 i4 nlocal : Z) :
  IZR (count_local i1 i2 i3 i4 nlocal) =
    owned i1 nlocal + owned i2 nlocal + owned i3 nlocal + owned i4 nlocal.
Proof.
  unfold count_local, owned.
  destruct (i1 <? nlocal)%Z, (i2 <? nlocal)%Z, (i3 <? nlocal)%Z,
           (i4 <? nlocal)%Z; cbn; lra.
Qed.

(** The part of C2 that the code does meet.  In half mode, with every
    flag set, the thread's bond energy and dihedral virial receive the
    contribution scaled by [cnt/4], and the quarter share of the energy
    is added to the per-atom energy cell of exactly those of the four
    atoms that are below [nlocal]. *)
Lemma ev_tally_thr_dihedral_half_mode :
  forall (dihed : Dihedral.t) (i1 i2 i3 i4 nlocal : Z) (edihedral : R)
         (f1 f3 f4 : V3) (vb1x vb1y vb1z vb2x vb2y vb2z vb3x vb3y vb3z : R)
         (s : state),
    nonzero (Dihedral.eflag_either dihed) = true ->
    nonzero (Dihedral.eflag_global dihed) = true ->
    nonzero (Dihedral.eflag_atom dihed) = true ->
    nonzero (Dihedral.vflag_either dihed) = true ->
    nonzero (Dihedral.vflag_global dihed) = true ->
    let s' := ev_tally_thr_dihedral dihed i1 i2 i3 i4 nlocal 0 edihedral
                f1 f3 f4 vb1x vb1y vb1z vb2x vb2y vb2z vb3x vb3y vb3z s in
    let v := virial_dihedral f1 f3 f4 vb1x vb1y vb1z vb2x vb2y vb2z
                             vb3x vb3y vb3z in
    let cnt := IZR (count_local i1 i2 i3 i4 nlocal) in
    let quarter := 0.25 * edihedral in
    ThrData.eng_bond (thr s') = ThrData.eng_bond (thr s) + cnt / 4 * edihedral /\
    ThrData.virial_dihed (thr s') =
      V6add (ThrData.virial_dihed (thr s)) (V6scale (cnt / 4) v) /\
    forall a : Z,
      eatom s' a =
        eatom s a
        + owned i1 nlocal * at_cell a (eatom_slot (thr s) i1) quarter
        + owned i2 nlocal * at_cell a (eatom_slot (thr s) i2) quarter
        + owned i3 nlocal * at_cell a (eatom_slot (thr s) i3) quarter
        + owned i4 nlocal * at_cell a (eatom_slot (thr s) i4) quarter.
Proof.
  intros dihed i1 i2 i3 i4 nlocal edihedral f1 f3 f4
         vb1x vb1y vb1z vb2x vb2y vb2z vb3x vb3y vb3z [d ea va]
         He Heg Hea Hv Hvg s' v cnt quarter.
  subst s' v cnt quarter. unfold ev_tally_thr_dihedral.
  rewrite He, Heg, Hea, Hv, Hvg.
  change (nonzero 0) with false.
  set (cnt := count_local i1 i2 i3 i4 nlocal).
  set (w := virial_dihedral _ _ _ _ _ _ _ _ _ _ _ _).
  assert (Hcnt := count_local_owned i1 i2 i3 i4 nlocal). fold cnt in Hcnt.
  clearbody cnt w. revert Hcnt. unfold owned.
  destruct (nonzero (Dihedral.vflag_atom dihed)),
           (i1 <? nlocal)%Z, (i2 <? nlocal)%Z, (i3 <? nlocal)%Z,
           (i4 <? nlocal)%Z; intros Hcnt;
    run_cmd; (split; [lra | split; [rewrite Hcnt; by_components |]]);
    intros a; rewrite ?upd_add; lra.
Qed.

(** C2 at a failing input.  Half mode, four local atoms 0, 1, 2, 3
    ([nlocal] is 4), every flag set, energy 1 and a virial whose
    components are all 1.  The energy side credits each of the four atoms
    with its quarter.  The stress side credits atom 0 four times, so that
    its cell receives the whole virial, and leaves the cells of the
    atoms 1, 2, 3 at zero although each of them is below [nlocal]. *)
Lemma ev_tally_thr_dihedral_vatom_defect :
  let s := state_zero 0 in
  let u := mkV3 1 1 1 in
  let z := mkV3 0 0 0 in
  let s' := ev_tally_thr_dihedral dihedral_all_on 0 1 2 3 4 0 1 u z z
              1 1 1 0 0 0 0 0 0 s in
  let quarter := V6scale 0.25 (virial_dihedral u z z 1 1 1 0 0 0 0 0 0) in
  (eatom s' 0 = 0.25 /\ eatom s' 1 = 0.25 /\
   eatom s' 2 = 0.25 /\ eatom s' 3 = 0.25) /\
  quarter = mkV6 0.25 0.25 0.25 0.25 0.25 0.25 /\
  vatom s' 0 = V6ones /\
  (vatom s' 1 = V6zero /\ vatom s' 2 = V6zero /\ vatom s' 3 = V6zero) /\
  vatom s' 1 <> V6add (vatom s 1) quarter.
Proof.
  cbn; unfold upd; cbn.
  repeat split; try lra; try (apply V6_eq; cbn; lra).
  intros H; apply (f_equal v0) in H; cbn in H; lra.
Qed.

(** ** Reduction *)

(** Evaluation of [reduce_thr] down to the field updates. *)
Ltac run_reduce :=
  lazy beta iota zeta delta
    [reduce_thr when ifelse andthen skip on_lmp emit sync_threads
     do_virial_fdotr do_reduce_force do_reduce_torque
     merge_pair_energy merge_pair_virial merge_bond merge_angle
     merge_dihedral merge_improper merge_kspace
     lmp cur calls ThrData.get_tid option_map
     LAMMPS.set_f LAMMPS.set_torque LAMMPS.set_pair LAMMPS.set_bond
     LAMMPS.set_angle LAMMPS.set_dihedral LAMMPS.set_improper
     LAMMPS.set_kspace
     LAMMPS.nlocal LAMMPS.nghost LAMMPS.nfirst LAMMPS.x LAMMPS.f
     LAMMPS.torque LAMMPS.nthreads LAMMPS.includegroup LAMMPS.pair
     LAMMPS.bond LAMMPS.angle LAMMPS.dihedral LAMMPS.improper LAMMPS.kspace
     Pair.eng_vdwl Pair.eng_coul Pair.virial Pair.vflag_fdotr
     Bond.energy Bond.virial Angle.energy Angle.virial
     Dihedral.energy Dihedral.virial Improper.energy Improper.virial
     KSpace.energy KSpace.virial].

Lemma sumR_cons (g : ThrData.t -> R) (d : ThrData.t) (l : list ThrData.t) :
  sumR g (d :: l) = g d + sumR g l.
Proof. reflexivity. Qed.

Lemma sum6_cons (g : ThrData.t -> V6) (d : ThrData.t) (l : list ThrData.t) :
  sum6 g (d :: l) = V6add (g d) (sum6 g l).
Proof. reflexivity. Qed.

Lemma thr_style_eqb_refl (a : thr_style_t) : thr_style_eqb a a = true.
Proof. destruct a; cbn; [apply Z.eqb_refl | reflexivity ..]. Qed.

Lemma thr_style_eqb_neq (a b : thr_style_t) :
  a <> b -> thr_style_eqb a b = false.
Proof.
  intros H. destruct (thr_style_eqb a b) eqn:E; [| reflexivity].
  apply thr_style_eqb_eq in E. contradiction.
Qed.

Lemma data_reduce_calls_app (l1 l2 : list call) :
  data_reduce_calls (l1 ++ l2) = data_reduce_calls l1 ++ data_reduce_calls l2.
Proof. apply filter_app. Qed.

(** A set bit of [eflag] makes [eflag | vflag] non-zero. *)
Lemma nonzero_land_lor (eflag vflag mask : Z) :
  nonzero (Z.land eflag mask) = true -> nonzero (Z.lor eflag vflag) = true.
Proof.
  rewrite !nonzero_true. intros H Hor.
  apply Z.lor_eq_0_iff in Hor as [He _]. subst eflag.
  apply H. apply Z.land_0_l.
Qed.

Section ReduceFacts.

Variable virial_fdotr_compute :
  array -> Z -> Z -> Z -> ThrData.t -> ThrData.t.
Variable data_reduce_thr : array -> Z -> Z -> Z -> Z -> array.

(** [reduce_thr] is its [switch] followed by its final [if]. *)
Lemma reduce_thr_split (thr_style last_omp_style : thr_style_t)
    (eflag vflag : Z) (s : rstate) :
  reduce_thr virial_fdotr_compute data_reduce_thr
    thr_style last_omp_style eflag vflag s =
    force_part data_reduce_thr thr_style last_omp_style
      (LAMMPS.nlocal (lmp s) + LAMMPS.nghost (lmp s))
      (LAMMPS.nthreads (lmp s)) (ThrData.tid (cur s))
      (category_part virial_fdotr_compute thr_style eflag vflag s).
Proof. reflexivity. Qed.

(** The [switch] makes no call of [data_reduce_thr] and leaves the
    force and torque arrays alone. *)
Lemma category_part_frame (thr_style : thr_style_t) (eflag vflag : Z)
    (s : rstate) :
  let s' := category_part virial_fdotr_compute thr_style eflag vflag s in
  data_reduce_calls (calls s') = data_reduce_calls (calls s) /\
  LAMMPS.f (lmp s') = LAMMPS.f (lmp s) /\
  LAMMPS.torque (lmp s') = LAMMPS.torque (lmp s).
Proof.
  destruct s as [l d log]; destruct l; unfold category_part.
  destruct thr_style; try (run_reduce; repeat split; reflexivity).
  cbn [lmp LAMMPS.pair LAMMPS.includegroup].
  destruct (nonzero (Pair.vflag_fdotr pair)), (includegroup =? 0)%Z,
           (nonzero (Z.lor eflag vflag)),
           (nonzero (Z.land eflag 1)), (nonzero (Z.land vflag 3));
    run_reduce;
    repeat rewrite data_reduce_calls_app; cbn [data_reduce_calls filter];
    rewrite ?app_nil_r; repeat split; reflexivity.
Qed.

(** C9.  [reduce_thr] calls [data_reduce_thr] if and only if
    [thr_style] equals [fix->last_omp_style].  When it does, it reduces
    the force array with [nall = nlocal + nghost], the number of threads,
    width 3 and the caller's thread id, and then the torque array with
    the same arguments exactly when there is a torque array; otherwise
    it makes no such call and leaves both arrays as they are. *)
Theorem reduce_thr_force_reduction :
  forall (thr_style last_omp_style : thr_style_t) (eflag vflag : Z)
         (s : rstate),
    let s' := reduce_thr virial_fdotr_compute data_reduce_thr
                thr_style last_omp_style eflag vflag s in
    let nall := (LAMMPS.nlocal (lmp s) + LAMMPS.nghost (lmp s))%Z in
    let nthreads := LAMMPS.nthreads (lmp s) in
    let tid := ThrData.tid (cur s) in
    (thr_style = last_omp_style ->
       data_reduce_calls (calls s') =
         data_reduce_calls (calls s)
         ++ call_data_reduce_thr force_array nall nthreads 3 tid
            :: match LAMMPS.torque (lmp s) with
               | Some _ => [call_data_reduce_thr torque_array nall nthreads 3 tid]
               | None => []
               end /\
       LAMMPS.f (lmp s') =
         data_reduce_thr (LAMMPS.f (lmp s)) nall nthreads 3 tid /\
       LAMMPS.torque (lmp s') =
         option_map (fun t => data_reduce_thr t nall nthreads 3 tid)
                    (LAMMPS.torque (lmp s))) /\
    (thr_style <> last_omp_style ->
       data_reduce_calls (calls s') = data_reduce_calls (calls s) /\
       LAMMPS.f (lmp s') = LAMMPS.f (lmp s) /\
       LAMMPS.torque (lmp s') = LAMMPS.torque (lmp s)).
Proof.
  intros thr_style last eflag vflag s s' nall nthreads tid.
  subst s'. rewrite reduce_thr_split. fold nall nthreads tid.
  destruct (category_part_frame thr_style eflag vflag s) as (Hc & Hf & Ht).
  cbn zeta in Hc, Hf, Ht. rewrite <- Hc, <- Hf, <- Ht.
  generalize (category_part virial_fdotr_compute thr_style eflag vflag s).
  clear Hc Hf Ht. clearbody nall nthreads tid.
  intros [l d log]; destruct l. unfold force_part.
  split; intros Hlast.
  - subst last. rewrite thr_style_eqb_refl.
    destruct torque; run_reduce;
      repeat rewrite data_reduce_calls_app; cbn [data_reduce_calls filter];
      rewrite ?app_nil_r, <- ?app_assoc; repeat split; reflexivity.
  - rewrite (thr_style_eqb_neq _ _ Hlast).
    run_reduce; repeat split; reflexivity.
Qed.

Lemma nonzero_land_lor_r (eflag vflag mask : Z) :
  nonzero (Z.land vflag mask) = true -> nonzero (Z.lor eflag vflag) = true.
Proof. rewrite Z.lor_comm. apply nonzero_land_lor. Qed.

(** What one call of [reduce_thr] does to the totals of its category. *)
Lemma reduce_thr_totals (thr_style last_omp_style : thr_style_t)
    (eflag vflag : Z) (s : rstate) :
  let s' := reduce_thr virial_fdotr_compute data_reduce_thr
              thr_style last_omp_style eflag vflag s in
  let l := lmp s in
  let l' := lmp s' in
  match thr_style with
  | THR_OTHER _ => True
  | THR_PAIR =>
      (forall d : ThrData.t,
         at_merge virial_fdotr_compute l' d = at_merge virial_fdotr_compute l d) /\
      cur s' = at_merge virial_fdotr_compute l (cur s) /\
      Pair.eng_vdwl (LAMMPS.pair l') =
        Pair.eng_vdwl (LAMMPS.pair l)
        + (if nonzero (Z.land eflag 1) then ThrData.eng_vdwl (cur s') else 0) /\
      Pair.eng_coul (LAMMPS.pair l') =
        Pair.eng_coul (LAMMPS.pair l)
        + (if nonzero (Z.land eflag 1) then ThrData.eng_coul (cur s') else 0) /\
      Pair.virial (LAMMPS.pair l') =
        V6add (Pair.virial (LAMMPS.pair l))
              (if nonzero (Z.land vflag 3)
               then ThrData.virial_pair (cur s') else V6zero)
  | THR_BOND =>
      cur s' = cur s /\
      Bond.energy (LAMMPS.bond l') =
        Bond.energy (LAMMPS.bond l) + ThrData.eng_bond (cur s) /\
      Bond.virial (LAMMPS.bond l') =
        V6add (Bond.virial (LAMMPS.bond l)) (ThrData.virial_bond (cur s))
  | THR_ANGLE =>
      cur s' = cur s /\
      Angle.energy (LAMMPS.angle l') =
        Angle.energy (LAMMPS.angle l) + ThrData.eng_angle (cur s) /\
      Angle.virial (LAMMPS.angle l') =
        V6add (Angle.virial (LAMMPS.angle l)) (ThrData.virial_angle (cur s))
  | THR_DIHEDRAL =>
      cur s' = cur s /\
      Dihedral.energy (LAMMPS.dihedral l') =
        Dihedral.energy (LAMMPS.dihedral l) + ThrData.eng_dihed (cur s) /\
      Dihedral.virial (LAMMPS.dihedral l') =
        V6add (Dihedral.virial (LAMMPS.dihedral l))
              (ThrData.virial_dihed (cur s))
  | THR_IMPROPER =>
      cur s' = cur s /\
      Improper.energy (LAMMPS.improper l') =
        Improper.energy (LAMMPS.improper l) + ThrData.eng_imprp (cur s) /\
      Improper.virial (LAMMPS.improper l') =
        V6add (Improper.virial (LAMMPS.improper l))
              (ThrData.virial_imprp (cur s))
  | THR_KSPACE =>
      cur s' = cur s /\
      KSpace.energy (LAMMPS.kspace l') =
        KSpace.energy (LAMMPS.kspace l) + ThrData.eng_kspce (cur s) /\
      KSpace.virial (LAMMPS.kspace l') =
        V6add (KSpace.virial (LAMMPS.kspace l)) (ThrData.virial_kspce (cur s))
  end.
Proof.
  destruct s as [l d log]; destruct l. cbv zeta. unfold reduce_thr, at_merge.
  destruct thr_style; [exact I | | | | | |];
    destruct (thr_style_eqb _ last_omp_style).
  1, 2: pose proof (nonzero_land_lor eflag vflag 1) as He;
    pose proof (nonzero_land_lor_r eflag vflag 3) as Hv;
    destruct pair;
    cbn [lmp cur LAMMPS.pair LAMMPS.includegroup Pair.vflag_fdotr];
    destruct (nonzero vflag_fdotr) eqn:Hfd, (includegroup =? 0)%Z eqn:Hig,
             (nonzero (Z.lor eflag vflag)),
             (nonzero (Z.land eflag 1)), (nonzero (Z.land vflag 3));
    try discriminate (He eq_refl); try discriminate (Hv eq_refl);
    destruct torque; run_reduce; rewrite ?Hfd, ?Hig;
    repeat split; try reflexivity; try lra;
    rewrite V6add_zero; reflexivity.
  all: destruct torque; run_reduce; repeat split; reflexivity.
Qed.

(** C1, amended.  One reduction step of a category, whatever the order
    in which the threads pass the critical section.  For the bond,
    angle, dihedral, improper and k-space categories the shared energy
    total and the shared virial total are their values before the step
    plus the sums over all threads of the thread's energy and virial of
    that category, each thread counted once, and the accumulators are
    left as they were.  For the pair category the two shared energies
    grow by the sums of the threads' [eng_vdwl] and [eng_coul] when bit
    1 of [eflag] is set and stay as they are otherwise, and the shared
    virial grows by the sum of the threads' [virial_pair] when one of
    the bits 1 and 2 of [vflag] is set and stays as it is otherwise; the
    accumulators summed are the ones the threads hold at the merge
    ([at_merge]), which are the ones before the step unless
    [vflag_fdotr] is set. *)
Theorem reduce_step_totals :
  forall (thr_style last_omp_style : thr_style_t) (eflag vflag : Z)
         (threads : list ThrData.t) (l : LAMMPS.t) (log : list call),
    let r := reduce_step virial_fdotr_compute data_reduce_thr
               thr_style last_omp_style eflag vflag threads l log in
    let l' := fst (fst r) in
    let threads' := snd (fst r) in
    match thr_style with
    | THR_OTHER _ => True
    | THR_PAIR =>
        threads' = map (at_merge virial_fdotr_compute l) threads /\
        Pair.eng_vdwl (LAMMPS.pair l') =
          Pair.eng_vdwl (LAMMPS.pair l)
          + (if nonzero (Z.land eflag 1)
             then sumR ThrData.eng_vdwl threads' else 0) /\
        Pair.eng_coul (LAMMPS.pair l') =
          Pair.eng_coul (LAMMPS.pair l)
          + (if nonzero (Z.land eflag 1)
             then sumR ThrData.eng_coul threads' else 0) /\
        Pair.virial (LAMMPS.pair l') =
          V6add (Pair.virial (LAMMPS.pair l))
                (if nonzero (Z.land vflag 3)
                 then sum6 ThrData.virial_pair threads' else V6zero)
    | THR_BOND =>
        threads' = threads /\
        Bond.energy (LAMMPS.bond l') =
          Bond.energy (LAMMPS.bond l) + sumR ThrData.eng_bond threads /\
        Bond.virial (LAMMPS.bond l') =
          V6add (Bond.virial (LAMMPS.bond l))
                (sum6 ThrData.virial_bond threads)
    | THR_ANGLE =>
        threads' = threads /\
        Angle.energy (LAMMPS.angle l') =
          Angle.energy (LAMMPS.angle l) + sumR ThrData.eng_angle threads /\
        Angle.virial (LAMMPS.angle l') =
          V6add (Angle.virial (LAMMPS.angle l))
                (sum6 ThrData.virial_angle threads)
    | THR_DIHEDRAL =>
        threads' = threads /\
        Dihedral.energy (LAMMPS.dihedral l') =
          Dihedral.energy (LAMMPS.dihedral l)
          + sumR ThrData.eng_dihed threads /\
        Dihedral.virial (LAMMPS.dihedral l') =
          V6add (Dihedral.virial (LAMMPS.dihedral l))
                (sum6 ThrData.virial_dihed threads)
    | THR_IMPROPER =>
        threads' = threads /\
        Improper.energy (LAMMPS.improper l') =
          Improper.energy (LAMMPS.improper l)
          + sumR ThrData.eng_imprp threads /\
        Improper.virial (LAMMPS.improper l') =
          V6add (Improper.virial (LAMMPS.improper l))
                (sum6 ThrData.virial_imprp threads)
    | THR_KSPACE =>
        threads' = threads /\
        KSpace.energy (LAMMPS.kspace l') =
          KSpace.energy (LAMMPS.kspace l) + sumR ThrData.eng_kspce threads /\
        KSpace.virial (LAMMPS.kspace l') =
          V6add (KSpace.virial (LAMMPS.kspace l))
                (sum6 ThrData.virial_kspce threads)
    end.
Proof.
  intros thr_style last eflag vflag threads.
  induction threads as [| d rest IH]; intros l log.
  - destruct thr_style; cbn; repeat split; try lra;
      try (symmetry; apply V6add_zero);
      try (destruct (nonzero (Z.land eflag 1)); lra);
      destruct (nonzero (Z.land vflag 3)); symmetry; apply V6add_zero.
  - cbn [reduce_step].
    pose proof (reduce_thr_totals thr_style last eflag vflag (mkR l d log))
      as Hstep.
    set (s1 := reduce_thr virial_fdotr_compute data_reduce_thr
                 thr_style last eflag vflag (mkR l d log)) in *.
    specialize (IH (lmp s1) (calls s1)).
    destruct (reduce_step virial_fdotr_compute data_reduce_thr
                thr_style last eflag vflag rest (lmp s1) (calls s1))
      as [[l' rest'] log'].
    cbn [fst snd lmp cur] in *.
    destruct thr_style; [exact I | | | | | |].
    + destruct Hstep as (Hf & Hc & He1 & He2 & Hv).
      destruct IH as (Ic & Ie1 & Ie2 & Iv).
      rewrite Ie1, Ie2, Iv, He1, He2, Hv, !sumR_cons, sum6_cons.
      repeat split.
      * rewrite Hc, Ic. cbn [map]. f_equal. apply map_ext. exact Hf.
      * destruct (nonzero (Z.land eflag 1)); lra.
      * destruct (nonzero (Z.land eflag 1)); lra.
      * destruct (nonzero (Z.land vflag 3)); by_components.
    + destruct Hstep as (Hc & He & Hv), IH as (Ic & Ie & Iv).
      rewrite Hc, Ic, Ie, Iv, He, Hv, sumR_cons, sum6_cons.
      repeat split; [lra | by_components].
    + destruct Hstep as (Hc & He & Hv), IH as (Ic & Ie & Iv).
      rewrite Hc, Ic, Ie, Iv, He, Hv, sumR_cons, sum6_cons.
      repeat split; [lra | by_components].
    + destruct Hstep as (Hc & He & Hv), IH as (Ic & Ie & Iv).
      rewrite Hc, Ic, Ie, Iv, He, Hv, sumR_cons, sum6_cons.
      repeat split; [lra | by_components].
    + destruct Hstep as (Hc & He & Hv), IH as (Ic & Ie & Iv).
      rewrite Hc, Ic, Ie, Iv, He, Hv, sumR_cons, sum6_cons.
      repeat split; [lra | by_components].
    + destruct Hstep as (Hc & He & Hv), IH as (Ic & Ie & Iv).
      rewrite Hc, Ic, Ie, Iv, He, Hv, sumR_cons, sum6_cons.
      repeat split; [lra | by_components].
Qed.

End ReduceFacts.

(** An instance of C9 with the shared state [lmp_zero] (three local
    atoms, one ghost, two threads, no torque array): thread 1 finishes
    the bond category, which is the last one, and one call reduces the
    force array over four atoms. *)
Lemma reduce_thr_force_reduction_witness :
  let s := mkR lmp_zero (thr_zero 1) [] in
  let s' := reduce_thr fdotr_none data_reduce_none THR_BOND THR_BOND 0 0 s in
  data_reduce_calls (calls s') = [call_data_reduce_thr force_array 4 2 3 1].
Proof.
  intros s s'.
  exact (proj1 (proj1 (reduce_thr_force_reduction fdotr_none data_reduce_none
                         THR_BOND THR_BOND 0 0 s) eq_refl)).
Defined.

(** C1, as stated, fails for the pair category: with [eflag] and [vflag]
    both zero, the step does not merge.  One thread holds a van der Waals
    energy of 1; after the step the shared total is still zero, not one. *)
Lemma reduce_step_pair_flags_off :
  let r := reduce_step fdotr_none data_reduce_none THR_PAIR (THR_OTHER 0) 0 0
             [thr_vdwl_one] lmp_zero [] in
  let l' := fst (fst r) in
  sumR ThrData.eng_vdwl [thr_vdwl_one] = 1 /\
  Pair.eng_vdwl (LAMMPS.pair l') = Pair.eng_vdwl (LAMMPS.pair lmp_zero) /\
  Pair.eng_vdwl (LAMMPS.pair l') <>
    Pair.eng_vdwl (LAMMPS.pair lmp_zero) + sumR ThrData.eng_vdwl [thr_vdwl_one].
Proof.
  cbn. repeat split; try reflexivity; lra.
Qed.

(** An instance of the amended C1: two threads with bond energies 1 and
    0 reduce the bond category into a shared total of zero. *)
Lemma reduce_step_totals_witness :
  let d1 := ThrData.set_eng_bond 1 (thr_zero 0) in
  let d2 := thr_zero 1 in
  let r := reduce_step fdotr_none data_reduce_none THR_BOND THR_KSPACE 1 0
             [d1; d2] lmp_zero [] in
  Bond.energy (LAMMPS.bond (fst (fst r))) =
    Bond.energy (LAMMPS.bond lmp_zero) + sumR ThrData.eng_bond [d1; d2].
Proof.
  intros d1 d2 r.
  exact (proj1 (proj2 (reduce_step_totals fdotr_none data_reduce_none
                         THR_BOND THR_KSPACE 1 0 [d1; d2] lmp_zero []))).
Defined.

(** C5.  With global energy accounting on, the dihedral tally adds its
    energy share (the whole [edihedral] in newton mode, [cnt] quarters of
    it otherwise) to [thr->eng_bond] and leaves [thr->eng_dihed] as it
    is.  The reduction of the dihedral category adds [thr->eng_dihed],
    and nothing else, to [dihedral->energy] and does not touch the bond
    totals.  So the shared dihedral energy after the reduction is the
    same whether or not the tally took place: the tallied energy is not
    merged into it. *)
Theorem dihedral_energy_tallied_to_bond :
  forall (virial_fdotr_compute : array -> Z -> Z -> Z -> ThrData.t -> ThrData.t)
         (data_reduce_thr : array -> Z -> Z -> Z -> Z -> array)
         (dihed : Dihedral.t) (i1 i2 i3 i4 nlocal newton_bond : Z)
         (edihedral : R) (f1 f3 f4 : V3)
         (vb1x vb1y vb1z vb2x vb2y vb2z vb3x vb3y vb3z : R) (s : state)
         (last_omp_style : thr_style_t) (eflag vflag : Z)
         (l : LAMMPS.t) (log : list call),
    nonzero (Dihedral.eflag_either dihed) = true ->
    nonzero (Dihedral.eflag_global dihed) = true ->
    let s' := ev_tally_thr_dihedral dihed i1 i2 i3 i4 nlocal newton_bond
                edihedral f1 f3 f4 vb1x vb1y vb1z vb2x vb2y vb2z
                vb3x vb3y vb3z s in
    let share := if nonzero newton_bond then edihedral
                 else IZR (count_local i1 i2 i3 i4 nlocal) * (0.25 * edihedral) in
    let reduce d := reduce_thr virial_fdotr_compute data_reduce_thr
                      THR_DIHEDRAL last_omp_style eflag vflag (mkR l d log) in
    ThrData.eng_bond (thr s') = ThrData.eng_bond (thr s) + share /\
    ThrData.eng_dihed (thr s') = ThrData.eng_dihed (thr s) /\
    Dihedral.energy (LAMMPS.dihedral (lmp (reduce (thr s')))) =
      Dihedral.energy (LAMMPS.dihedral l) + ThrData.eng_dihed (thr s') /\
    LAMMPS.bond (lmp (reduce (thr s'))) = LAMMPS.bond l /\
    Dihedral.energy (LAMMPS.dihedral (lmp (reduce (thr s')))) =
      Dihedral.energy (LAMMPS.dihedral (lmp (reduce (thr s)))).
Proof.
  intros fdotr dr dihed i1 i2 i3 i4 nlocal newton_bond edihedral f1 f3 f4
         vb1x vb1y vb1z vb2x vb2y vb2z vb3x vb3y vb3z [d ea va]
         last eflag vflag l log He Hg s' share reduce.
  assert (Htally : ThrData.eng_bond (thr s') = ThrData.eng_bond d + share /\
                   ThrData.eng_dihed (thr s') = ThrData.eng_dihed d).
  { subst s' share. unfold ev_tally_thr_dihedral. rewrite He, Hg.
    set (cnt := count_local i1 i2 i3 i4 nlocal).
    set (w := virial_dihedral _ _ _ _ _ _ _ _ _ _ _ _).
    clearbody cnt w.
    destruct (nonzero newton_bond), (nonzero (Dihedral.eflag_atom dihed)),
             (nonzero (Dihedral.vflag_either dihed)),
             (nonzero (Dihedral.vflag_global dihed)),
             (nonzero (Dihedral.vflag_atom dihed)),
             (i1 <? nlocal)%Z, (i2 <? nlocal)%Z, (i3 <? nlocal)%Z,
             (i4 <? nlocal)%Z;
      run_cmd; split; reflexivity. }
  destruct Htally as [Hb Hd].
  assert (Hred : forall d0 : ThrData.t,
            Dihedral.energy (LAMMPS.dihedral (lmp (reduce d0))) =
              Dihedral.energy (LAMMPS.dihedral l) + ThrData.eng_dihed d0 /\
            LAMMPS.bond (lmp (reduce d0)) = LAMMPS.bond l).
  { intros d0. subst reduce. cbv beta. unfold reduce_thr.
    destruct l; destruct (thr_style_eqb THR_DIHEDRAL last);
      destruct torque; run_reduce; split; reflexivity. }
  cbn [thr] in *.
  repeat split; try assumption; try apply Hred.
  rewrite (proj1 (Hred (thr s'))), (proj1 (Hred d)), Hd. reflexivity.
Qed.

(** An instance of C5: four local atoms in half mode, energy 1. *)
Lemma dihedral_energy_tallied_to_bond_witness :
  let z := mkV3 0 0 0 in
  let s' := ev_tally_thr_dihedral dihedral_all_on 0 1 2 3 4 0 1 z z z
              0 0 0 0 0 0 0 0 0 (state_zero 0) in
  ThrData.eng_bond (thr s') = 0 + 4 * (0.25 * 1) /\
  ThrData.eng_dihed (thr s') = 0.
Proof.
  intros z s'.
  pose proof (dihedral_energy_tallied_to_bond fdotr_none data_reduce_none
                dihedral_all_on 0 1 2 3 4 0 1 z z z 0 0 0 0 0 0 0 0 0
                (state_zero 0) THR_DIHEDRAL 1 0 lmp_zero [] eq_refl eq_refl)
    as (Hb & Hd & _).
  split; [exact Hb | exact Hd].
Defined.

(** * Further properties of the tallies *)

Lemma ThrData_eq (a b : ThrData.t) :
  ThrData.tid a = ThrData.tid b ->
  ThrData.eng_vdwl a = ThrData.eng_vdwl b ->
  ThrData.eng_coul a = ThrData.eng_coul b ->
  ThrData.eng_bond a = ThrData.eng_bond b ->
  ThrData.eng_angle a = ThrData.eng_angle b ->
  ThrData.eng_dihed a = ThrData.eng_dihed b ->
  ThrData.eng_imprp a = ThrData.eng_imprp b ->
  ThrData.eng_kspce a = ThrData.eng_kspce b ->
  ThrData.virial_pair a = ThrData.virial_pair b ->
  ThrData.virial_bond a = ThrData.virial_bond b ->
  ThrData.virial_angle a = ThrData.virial_angle b ->
  ThrData.virial_dihed a = ThrData.virial_dihed b ->
  ThrData.virial_imprp a = ThrData.virial_imprp b ->
  ThrData.virial_kspce a = ThrData.virial_kspce b ->
  ThrData._eatom a = ThrData._eatom b ->
  ThrData._vatom a = ThrData._vatom b ->
  a = b.
Proof.
  destruct a, b; cbn; intros; subst; reflexivity.
Qed.

Lemma state_eq (a b : state) :
  thr a = thr b -> eatom a = eatom b -> vatom a = vatom b -> a = b.
Proof.
  destruct a, b; cbn; intros; subst; reflexivity.
Qed.

(** Equality of two tensors built by several operations: the components
    are computed by need, then compared by [lra]. *)
Ltac componentwise :=
  apply V6_eq;
  lazy beta iota zeta delta
    [v0 v1 v2 v3 v4 v5 v_tally v_tally_scale V6scale V6add V6sub V6zero owned];
  lra.

(** Two states built by evaluation are equal: field by field, with the
    arithmetic left to [lra]. *)
Ltac same_state :=
  apply state_eq; run_cmd;
  [ apply ThrData_eq; run_cmd; try reflexivity; try lra; try componentwise
  | try reflexivity | try reflexivity ].

(** X1.  For two local atoms the pairwise tally does not depend on the
    newton flag: [e_tally_thr] and [v_tally_thr] reach the same state in
    half mode and in newton mode, totals and per-atom cells alike. *)
Theorem pair_tally_local_newton_immaterial :
  forall (pair : Pair.t) (i j nlocal np1 np2 : Z) (evdwl ecoul : R) (v : V6)
         (s : state),
    (i < nlocal)%Z -> (j < nlocal)%Z ->
    e_tally_thr pair i j nlocal np1 evdwl ecoul s =
      e_tally_thr pair i j nlocal np2 evdwl ecoul s /\
    v_tally_thr pair i j nlocal np1 v s = v_tally_thr pair i j nlocal np2 v s.
Proof.
  intros pair i j nlocal np1 np2 evdwl ecoul v [d ea va] Hi Hj.
  apply Z.ltb_lt in Hi; apply Z.ltb_lt in Hj.
  unfold e_tally_thr, v_tally_thr; rewrite Hi, Hj, !orb_true_r.
  split.
  - destruct (nonzero (Pair.eflag_global pair)),
             (nonzero (Pair.eflag_atom pair)),
             (nonzero np1), (nonzero np2); same_state.
  - destruct (nonzero (Pair.vflag_global pair)),
             (nonzero (Pair.vflag_atom pair)),
             (nonzero np1), (nonzero np2); same_state.
Qed.

(** An instance of X1: atoms 0 and 1 of two local atoms. *)
Lemma pair_tally_local_newton_immaterial_witness :
  e_tally_thr pair_all_on 0 1 2 0 1 1 (state_zero 0) =
    e_tally_thr pair_all_on 0 1 2 1 1 1 (state_zero 0).
Proof.
  exact (proj1 (pair_tally_local_newton_immaterial pair_all_on 0 1 2 0 1 1 1
                  V6ones (state_zero 0) ltac:(lia) ltac:(lia))).
Defined.

(** X2.  With per-atom virial accounting on, [v_tally_thr] adds half of
    [v] to the per-atom stress cell of [i] exactly when the newton flag is
    set or [i < nlocal], likewise for [j], and no other cell changes. *)
Theorem v_tally_thr_per_atom :
  forall (pair : Pair.t) (i j nlocal newton_pair : Z) (v : V6) (s : state),
    nonzero (Pair.vflag_atom pair) = true ->
    let s' := v_tally_thr pair i j nlocal newton_pair v s in
    let credited (a : Z) := nonzero newton_pair || (a <? nlocal)%Z in
    forall a : Z,
      vatom s' a =
        V6add (V6add (vatom s a)
          (if credited i
           then at_cell6 a (vatom_slot (thr s) i) (V6scale 0.5 v) else V6zero))
          (if credited j
           then at_cell6 a (vatom_slot (thr s) j) (V6scale 0.5 v) else V6zero).
Proof.
  intros pair i j nlocal newton_pair v [d ea va] Ha s' credited a.
  subst s' credited. unfold v_tally_thr; rewrite Ha.
  destruct (nonzero (Pair.vflag_global pair)), (nonzero newton_pair),
           (i <? nlocal)%Z, (j <? nlocal)%Z;
    run_cmd; rewrite ?upd_v_tally_scale, ?V6add_zero; reflexivity.
Qed.

(** An instance of X2: a local atom 0 and a ghost atom 1 in half mode. *)
Lemma v_tally_thr_per_atom_witness :
  let s' := v_tally_thr pair_all_on 0 1 1 0 V6ones (state_zero 0) in
  vatom s' 1 =
    V6add (V6add V6zero (at_cell6 1 0 (V6scale 0.5 V6ones))) V6zero.
Proof.
  exact (v_tally_thr_per_atom pair_all_on 0 1 1 0 V6ones (state_zero 0)
           eq_refl 1%Z).
Defined.

(** Two different atoms have different cells. *)
Lemma slot_eqb_neq (base i j : Z) :
  i <> j -> ((base + i =? base + j)%Z = false).
Proof. intros H. apply Z.eqb_neq. lia. Qed.

(** Cell comparisons between the atoms named in the hypotheses. *)
Ltac distinct_cells :=
  unfold at_cell, at_cell6;
  repeat match goal with
         | H : ?i <> ?j |- context [(?b + ?i =? ?b + ?j)%Z] =>
             rewrite (slot_eqb_neq b i j H)
         | H : ?j <> ?i |- context [(?b + ?i =? ?b + ?j)%Z] =>
             rewrite (slot_eqb_neq b i j (not_eq_sym H))
         end;
  rewrite ?Z.eqb_refl.

(** X3.  The pairwise tally credits the atoms with what it credits the
    thread.  For two different atoms and every flag set, in newton mode
    and in half mode and whatever atoms are ghosts, the growth of the two
    per-atom energy cells adds up to the growth of [eng_vdwl] plus that of
    [eng_coul], and the growth of the two per-atom stress cells adds up to
    the growth of [virial_pair]. *)
Theorem pair_tally_conserves :
  forall (pair : Pair.t) (i j nlocal newton_pair : Z) (evdwl ecoul : R)
         (v : V6) (s : state),
    i <> j ->
    nonzero (Pair.eflag_global pair) = true ->
    nonzero (Pair.eflag_atom pair) = true ->
    nonzero (Pair.vflag_global pair) = true ->
    nonzero (Pair.vflag_atom pair) = true ->
    let se := e_tally_thr pair i j nlocal newton_pair evdwl ecoul s in
    let sv := v_tally_thr pair i j nlocal newton_pair v s in
    let ci := eatom_slot (thr s) i in
    let cj := eatom_slot (thr s) j in
    let wi := vatom_slot (thr s) i in
    let wj := vatom_slot (thr s) j in
    (eatom se ci - eatom s ci) + (eatom se cj - eatom s cj) =
      (ThrData.eng_vdwl (thr se) - ThrData.eng_vdwl (thr s))
      + (ThrData.eng_coul (thr se) - ThrData.eng_coul (thr s)) /\
    V6add (V6sub (vatom sv wi) (vatom s wi)) (V6sub (vatom sv wj) (vatom s wj)) =
      V6sub (ThrData.virial_pair (thr sv)) (ThrData.virial_pair (thr s)).
Proof.
  intros pair i j nlocal newton_pair evdwl ecoul v [d ea va] Hij
         Heg Hea Hvg Hva se sv ci cj wi wj.
  subst se sv ci cj wi wj. unfold e_tally_thr, v_tally_thr.
  rewrite Heg, Hea, Hvg, Hva.
  destruct (nonzero newton_pair), (i <? nlocal)%Z, (j <? nlocal)%Z;
    run_cmd; rewrite ?upd_add, ?upd_v_tally_scale; distinct_cells;
    (split; [lra | componentwise]).
Qed.

(** An instance of X3: a local atom 0 and a ghost atom 1 in half mode. *)
Lemma pair_tally_conserves_witness :
  let s := state_zero 0 in
  let se := e_tally_thr pair_all_on 0 1 1 0 1 1 s in
  (eatom se 0 - eatom s 0) + (eatom se 1 - eatom s 1) =
    (ThrData.eng_vdwl (thr se) - 0) + (ThrData.eng_coul (thr se) - 0).
Proof.
  exact (proj1 (pair_tally_conserves pair_all_on 0 1 1 0 1 1 V6ones
                  (state_zero 0) ltac:(lia) eq_refl eq_refl eq_refl eq_refl)).
Defined.

(** X4.  [ev_tally_thr] with the force magnitude [fpair] and
    [ev_tally_xyz_thr] with the force components [delx*fpair],
    [dely*fpair], [delz*fpair] reach the same state. *)
Theorem ev_tally_thr_xyz_agree :
  forall (pair : Pair.t) (i j nlocal newton_pair : Z)
         (evdwl ecoul fpair delx dely delz : R) (s : state),
    ev_tally_thr pair i j nlocal newton_pair evdwl ecoul fpair delx dely delz s =
      ev_tally_xyz_thr pair i j nlocal newton_pair evdwl ecoul
        (delx * fpair) (dely * fpair) (delz * fpair) delx dely delz s.
Proof.
  intros. unfold ev_tally_thr, ev_tally_xyz_thr.
  replace (mkV6 (delx * (delx * fpair)) (dely * (dely * fpair))
                (delz * (delz * fpair)) (delx * (dely * fpair))
                (delx * (delz * fpair)) (dely * (delz * fpair)))
    with (mkV6 (delx * delx * fpair) (dely * dely * fpair)
               (delz * delz * fpair) (delx * dely * fpair)
               (delx * delz * fpair) (dely * delz * fpair))
    by (apply V6_eq; cbn; ring).
  reflexivity.
Qed.



(** ** What a tally can reach *)

Lemma confined_skip (atoms : list Z) : confined atoms skip.
Proof. intros s; repeat split. Qed.

Lemma confined_andthen (atoms : list Z) (c1 c2 : cmd) :
  confined atoms c1 -> confined atoms c2 -> confined atoms (c1 ;; c2).
Proof.
  intros H1 H2 s; unfold andthen.
  destruct (H1 s) as (T1 & E1 & W1 & A1 & B1).
  destruct (H2 (c1 s)) as (T2 & E2 & W2 & A2 & B2).
  repeat split; try congruence.
  - intros a Ha. rewrite A2, A1; auto.
    intros i Hi. unfold eatom_slot in *. rewrite E1. auto.
  - intros a Ha. rewrite B2, B1; auto.
    intros i Hi. unfold vatom_slot in *. rewrite W1. auto.
Qed.

Lemma confined_when (atoms : list Z) (b : bool) (c : cmd) :
  confined atoms c -> confined atoms (when b c).
Proof.
  intros H; unfold when; destruct b; [exact H | apply confined_skip].
Qed.

Lemma confined_ifelse (atoms : list Z) (b : bool) (c1 c2 : cmd) :
  confined atoms c1 -> confined atoms c2 -> confined atoms (ifelse b c1 c2).
Proof. intros H1 H2; unfold ifelse; destruct b; assumption. Qed.

Lemma confined_add_eng_vdwl (atoms : list Z) (x : R) :
  confined atoms (add_eng_vdwl x).
Proof. intros [[] ea va]; repeat split. Qed.

Lemma confined_add_eng_coul (atoms : list Z) (x : R) :
  confined atoms (add_eng_coul x).
Proof. intros [[] ea va]; repeat split. Qed.

Lemma confined_add_eng_bond (atoms : list Z) (x : R) :
  confined atoms (add_eng_bond x).
Proof. intros [[] ea va]; repeat split. Qed.

Lemma confined_tally_virial_pair (atoms : list Z) (v : V6) :
  confined atoms (tally_virial_pair v).
Proof. intros [[] ea va]; repeat split. Qed.

Lemma confined_tally_virial_pair_scale (atoms : list Z) (c : R) (v : V6) :
  confined atoms (tally_virial_pair_scale c v).
Proof. intros [[] ea va]; repeat split. Qed.

Lemma confined_tally_virial_dihed (atoms : list Z) (v : V6) :
  confined atoms (tally_virial_dihed v).
Proof. intros [[] ea va]; repeat split. Qed.

Lemma confined_tally_virial_dihed_scale (atoms : list Z) (c : R) (v : V6) :
  confined atoms (tally_virial_dihed_scale c v).
Proof. intros [[] ea va]; repeat split. Qed.

Lemma upd_other {A : Type} (m : Z -> A) (k a : Z) (x : A) :
  a <> k -> upd m k x a = m a.
Proof.
  intros H; unfold upd. destruct (Z.eqb_spec a k); [contradiction | reflexivity].
Qed.

Lemma confined_add_eatom (atoms : list Z) (i : Z) (x : R) :
  In i atoms -> confined atoms (add_eatom i x).
Proof.
  intros Hi s; unfold add_eatom; cbn [thr eatom vatom].
  repeat split. intros a Ha. apply upd_other. auto.
Qed.

Lemma confined_tally_vatom (atoms : list Z) (i : Z) (v : V6) :
  In i atoms -> confined atoms (tally_vatom i v).
Proof.
  intros Hi s; unfold tally_vatom; cbn [thr eatom vatom].
  repeat split. intros a Ha. apply upd_other. auto.
Qed.

Lemma confined_tally_vatom_scale (atoms : list Z) (i : Z) (c : R) (v : V6) :
  In i atoms -> confined atoms (tally_vatom_scale i c v).
Proof.
  intros Hi s; unfold tally_vatom_scale; cbn [thr eatom vatom].
  repeat split. intros a Ha. apply upd_other. auto.
Qed.

Lemma confined_for_list (atoms : list Z) (body : Z -> cmd) (l : list Z) :
  (forall j, In j l -> confined atoms (body j)) ->
  confined atoms (for_list body l).
Proof.
  induction l as [| x l IH]; intros H; cbn [for_list].
  - apply confined_skip.
  - apply confined_andthen; [apply H; left; reflexivity |].
    apply IH. intros j Hj. apply H. right. exact Hj.
Qed.

Lemma In_firstn (n : nat) (l : list Z) (x : Z) :
  In x (firstn n l) -> In x l.
Proof.
  intros H. rewrite <- (firstn_skipn n l). apply in_or_app. left. exact H.
Qed.

(** The structure of a tally, statement by statement. *)
Ltac confine :=
  repeat match goal with
    | |- confined _ (_ ;; _) => apply confined_andthen
    | |- confined _ (when _ _) => apply confined_when
    | |- confined _ (ifelse _ _ _) => apply confined_ifelse
    | |- confined _ (add_eng_vdwl _) => apply confined_add_eng_vdwl
    | |- confined _ (add_eng_coul _) => apply confined_add_eng_coul
    | |- confined _ (add_eng_bond _) => apply confined_add_eng_bond
    | |- confined _ (tally_virial_pair _) => apply confined_tally_virial_pair
    | |- confined _ (tally_virial_pair_scale _ _) =>
        apply confined_tally_virial_pair_scale
    | |- confined _ (tally_virial_dihed _) => apply confined_tally_virial_dihed
    | |- confined _ (tally_virial_dihed_scale _ _) =>
        apply confined_tally_virial_dihed_scale
    | |- confined _ (add_eatom _ _) => apply confined_add_eatom; cbn; tauto
    | |- confined _ (tally_vatom _ _) => apply confined_tally_vatom; cbn; tauto
    | |- confined _ (tally_vatom_scale _ _ _) =>
        apply confined_tally_vatom_scale; cbn; tauto
    end.

Lemma confined_e_tally_thr (pair : Pair.t) (i j nlocal newton_pair : Z)
    (evdwl ecoul : R) :
  confined [i; j] (e_tally_thr pair i j nlocal newton_pair evdwl ecoul).
Proof. unfold e_tally_thr; cbv zeta; confine. Qed.

Lemma confined_v_tally_thr (pair : Pair.t) (i j nlocal newton_pair : Z)
    (v : V6) :
  confined [i; j] (v_tally_thr pair i j nlocal newton_pair v).
Proof. unfold v_tally_thr; confine. Qed.

Lemma confined_ev_tally_thr (pair : Pair.t) (i j nlocal newton_pair : Z)
    (evdwl ecoul fpair delx dely delz : R) :
  confined [i; j]
    (ev_tally_thr pair i j nlocal newton_pair evdwl ecoul fpair delx dely delz).
Proof. unfold ev_tally_thr, e_tally_thr, v_tally_thr; cbv zeta; confine. Qed.

(** X6.  No tally reaches beyond its own atoms.  Each tally operation
    keeps the thread id and both slice pointers of the accumulator, and
    the only cells of the per-atom energy and stress buffers it can change
    are the cells of the atoms it is called with: [i], [j] for the
    pairwise tallies, the listed atoms for the list tally, and so on. *)
Theorem tallies_confined :
  forall (pair : Pair.t) (dihed : Dihedral.t)
         (i j k m nlocal newton n : Z) (l : list Z)
         (evdwl ecoul fpair fx fy fz delx dely delz : R) (v : V6)
         (f1 f2 f3 d1 d2 d3 : V3)
         (vb1x vb1y vb1z vb2x vb2y vb2z vb3x vb3y vb3z : R),
    confined [i; j]
      (ev_tally_thr pair i j nlocal newton evdwl ecoul fpair delx dely delz) /\
    confined [i; j]
      (ev_tally_xyz_thr pair i j nlocal newton evdwl ecoul fx fy fz
         delx dely delz) /\
    confined [i; j; k] (ev_tally3_thr pair i j k evdwl ecoul f1 f2 d1 d2) /\
    confined [i; j; k; m] (ev_tally4_thr pair i j k m evdwl f1 f2 f3 d1 d2 d3) /\
    confined l (ev_tally_list_thr pair n l ecoul v) /\
    confined [i; j; k; m]
      (ev_tally_thr_dihedral dihed i j k m nlocal newton evdwl f1 f2 f3
         vb1x vb1y vb1z vb2x vb2y vb2z vb3x vb3y vb3z) /\
    confined [i; j] (v_tally2_thr i j fpair d1) /\
    confined [i; j; k] (v_tally3_thr i j k f1 f2 d1 d2) /\
    confined [i; j; k; m] (v_tally4_thr i j k m f1 f2 f3 d1 d2 d3).
Proof.
  intros. repeat match goal with |- _ /\ _ => split end.
  - apply confined_ev_tally_thr.
  - unfold ev_tally_xyz_thr, e_tally_thr, v_tally_thr; cbv zeta; confine.
  - unfold ev_tally3_thr; cbv zeta; confine.
  - unfold ev_tally4_thr; cbv zeta; confine.
  - unfold ev_tally_list_thr; cbv zeta; confine;
      apply confined_for_list; intros x Hx; apply In_firstn in Hx;
      [apply confined_add_eatom | apply confined_tally_vatom]; exact Hx.
  - unfold ev_tally_thr_dihedral; cbv zeta; confine.
  - unfold v_tally2_thr; cbv zeta; confine.
  - unfold v_tally3_thr; cbv zeta; confine.
  - unfold v_tally4_thr; cbv zeta; confine.
Qed.

(** X7.  A thread that has set up its slices and then tallies a pair of
    atoms of the buffer ([0 <= i, j < nall]) leaves the slice of every
    other thread as it is: no cell [tid' * nall + k] of the energy or the
    stress buffer changes, for [tid'] different from the thread's own
    id. *)
Theorem setup_then_tally_spares_other_slices :
  forall (eflag vflag nall eatom_base vatom_base : Z) (pair : Pair.t)
         (i j nlocal newton_pair : Z)
         (evdwl ecoul fpair delx dely delz : R) (s : state) (tid' k : Z),
    nonzero (Z.land eflag 2) = true ->
    nonzero (Z.land vflag 4) = true ->
    (0 <= i < nall)%Z -> (0 <= j < nall)%Z -> (0 <= k < nall)%Z ->
    tid' <> ThrData.tid (thr s) ->
    let s1 := ev_setup_thr eflag vflag nall eatom_base vatom_base s in
    let s2 := ev_tally_thr pair i j nlocal newton_pair evdwl ecoul
                fpair delx dely delz s1 in
    eatom s2 (eatom_base + tid' * nall + k)%Z =
      eatom s (eatom_base + tid' * nall + k)%Z /\
    vatom s2 (vatom_base + tid' * nall + k)%Z =
      vatom s (vatom_base + tid' * nall + k)%Z.
Proof.
  intros eflag vflag nall eb vb pair i j nlocal np evdwl ecoul fpair
         delx dely delz s tid' k He Hv Hi Hj Hk Htid s1 s2.
  assert (Hs1 : ThrData._eatom (thr s1) = (eb + ThrData.tid (thr s) * nall)%Z /\
                ThrData._vatom (thr s1) = (vb + ThrData.tid (thr s) * nall)%Z /\
                eatom s1 = eatom s /\ vatom s1 = vatom s).
  { subst s1. unfold ev_setup_thr. rewrite He, Hv.
    destruct s as [[] ea va]; repeat split. }
  destruct Hs1 as (Pe & Pv & Be & Bv).
  destruct (confined_ev_tally_thr pair i j nlocal np evdwl ecoul fpair
              delx dely delz s1) as (_ & _ & _ & A & B).
  fold s2 in A, B. rewrite <- Be, <- Bv.
  split; [apply A | apply B]; intros x Hx;
    unfold eatom_slot, vatom_slot; rewrite ?Pe, ?Pv;
    assert (Hxr : (0 <= x < nall)%Z)
      by (destruct Hx as [<- | [<- | []]]; assumption);
    nia.
Qed.

(** An instance of X7: thread 0 of a buffer of four atoms tallies the
    atoms 1 and 3; cell 2 of the slice of thread 1 is not touched. *)
Lemma setup_then_tally_spares_other_slices_witness :
  let s := state_zero 0 in
  let s1 := ev_setup_thr 2 4 4 0 0 s in
  let s2 := ev_tally_thr pair_all_on 1 3 4 1 1 1 1 1 1 1 s1 in
  eatom s2 (0 + 1 * 4 + 2)%Z = eatom s (0 + 1 * 4 + 2)%Z /\
  vatom s2 (0 + 1 * 4 + 2)%Z = vatom s (0 + 1 * 4 + 2)%Z.
Proof.
  exact (setup_then_tally_spares_other_slices 2 4 4 0 0 pair_all_on 1 3 4 1
           1 1 1 1 1 1 (state_zero 0) 1 2 eq_refl eq_refl
           ltac:(lia) ltac:(lia) ltac:(lia) ltac:(cbn; lia)).
Defined.

(** ** The energy side of the list tally *)

Lemma virial_only_skip : virial_only skip.
Proof. intros t; repeat split. Qed.

Lemma virial_only_andthen (c1 c2 : cmd) :
  virial_only c1 -> virial_only c2 -> virial_only (c1 ;; c2).
Proof.
  intros H1 H2 t; unfold andthen.
  destruct (H1 t) as (A1 & B1 & C1 & D1), (H2 (c1 t)) as (A2 & B2 & C2 & D2).
  repeat split; congruence.
Qed.

Lemma virial_only_when (b : bool) (c : cmd) :
  virial_only c -> virial_only (when b c).
Proof.
  intros H t; unfold when; destruct b; [apply H | repeat split].
Qed.

Lemma virial_only_tally_virial_pair (v : V6) : virial_only (tally_virial_pair v).
Proof. intros [[] ea va]; repeat split. Qed.

Lemma virial_only_tally_vatom (i : Z) (v : V6) : virial_only (tally_vatom i v).
Proof. intros [[] ea va]; repeat split. Qed.

Lemma virial_only_for_list (body : Z -> cmd) (l : list Z) :
  (forall j, virial_only (body j)) -> virial_only (for_list body l).
Proof.
  intros H; induction l as [| x l IH]; cbn [for_list].
  - apply virial_only_skip.
  - apply virial_only_andthen; [apply H | exact IH].
Qed.

(** The loop [for (i...) thr->_eatom[list[i]] += x] adds [x] to the cell
    of an atom once for each of its entries in the list. *)
Lemma for_list_add_eatom (x : R) (l : list Z) :
  forall (s : state),
    let s' := for_list (fun j => add_eatom j x) l s in
    thr s' = thr s /\
    forall j : Z,
      eatom s' (eatom_slot (thr s) j) =
        eatom s (eatom_slot (thr s) j) + INR (count_occ Z.eq_dec l j) * x.
Proof.
  induction l as [| y l IH]; intros s; cbn [for_list].
  - split; [reflexivity |]. intros j; unfold skip; cbn. lra.
  - unfold andthen. destruct (IH (add_eatom y x s)) as [Ht Hv].
    cbn zeta in *. split; [rewrite Ht; reflexivity |].
    intros j. change (thr (add_eatom y x s)) with (thr s) in Hv.
    rewrite Hv. unfold add_eatom; cbn [eatom thr].
    rewrite upd_add. unfold at_cell, eatom_slot.
    cbn [count_occ]. destruct (Z.eq_dec y j) as [-> | Hne].
    + rewrite Z.eqb_refl, S_INR. lra.
    + destruct (Z.eqb_spec (ThrData._eatom (thr s) + j)
                           (ThrData._eatom (thr s) + y)); [lia |].
      lra.
Qed.

(** The energy side of the list tally, before any statement of the
    virial side. *)
Lemma list_energy_before_virial (V : cmd) (x ecoul : R) (l : list Z)
    (s : state) :
  virial_only V ->
  let t' := V (for_list (fun j => add_eatom j x) l (add_eng_coul ecoul s)) in
  ThrData.eng_coul (thr t') = ThrData.eng_coul (thr s) + ecoul /\
  ThrData.eng_vdwl (thr t') = ThrData.eng_vdwl (thr s) /\
  forall j : Z,
    eatom t' (eatom_slot (thr s) j) =
      eatom s (eatom_slot (thr s) j) + INR (count_occ Z.eq_dec l j) * x.
Proof.
  intros HV.
  destruct (HV (for_list (fun j => add_eatom j x) l (add_eng_coul ecoul s)))
    as (Hv1 & Hc1 & Hp1 & Hb1).
  destruct (for_list_add_eatom x l (add_eng_coul ecoul s)) as [Ht Hcells].
  cbn zeta in *. rewrite Hv1, Hc1, Hb1, Ht.
  repeat split; try (destruct s as [[] ? ?]; reflexivity).
  intros j. specialize (Hcells j).
  replace (eatom_slot (thr (add_eng_coul ecoul s)) j)
    with (eatom_slot (thr s) j) in Hcells
    by (destruct s as [[] ? ?]; reflexivity).
  rewrite Hcells. destruct s as [[] ? ?]; reflexivity.
Qed.

(** X8.  The energy side of the list tally.  With energy accounting on
    and a list of [n > 0] atoms, [ev_tally_list_thr] adds [ecoul] to the
    thread's Coulomb energy, leaves its van der Waals energy as it is,
    and adds [ecoul/n] to the per-atom energy cell of an atom once for
    each of its entries in the list; for [n] different atoms each listed
    atom's energy grows by exactly [ecoul/n] and the [n] increments add
    up to [ecoul]. *)
Theorem ev_tally_list_thr_energy :
  forall (pair : Pair.t) (n : Z) (l : list Z) (ecoul : R) (v : V6)
         (s : state),
    (0 < n)%Z ->
    Z.of_nat (length l) = n ->
    nonzero (Pair.eflag_either pair) = true ->
    nonzero (Pair.eflag_global pair) = true ->
    nonzero (Pair.eflag_atom pair) = true ->
    let s' := ev_tally_list_thr pair n l ecoul v s in
    let cell (j : Z) := eatom_slot (thr s) j in
    ThrData.eng_coul (thr s') = ThrData.eng_coul (thr s) + ecoul /\
    ThrData.eng_vdwl (thr s') = ThrData.eng_vdwl (thr s) /\
    (forall j : Z,
       eatom s' (cell j) =
         eatom s (cell j) + INR (count_occ Z.eq_dec l j) * (ecoul / IZR n)) /\
    (NoDup l ->
       (forall j : Z, In j l ->
          eatom s' (cell j) = eatom s (cell j) + ecoul / IZR n) /\
       fold_right Rplus 0
         (map (fun j => eatom s' (cell j) - eatom s (cell j)) l) = ecoul).
Proof.
  intros pair n l ecoul v s Hn Hlen He Hg Ha s' cell.
  assert (Hnz : IZR n <> 0) by (apply not_0_IZR; lia).
  assert (Hfirst : firstn (Z.to_nat n) l = l) by (apply firstn_all2; lia).
  assert (Hrun : ThrData.eng_coul (thr s') = ThrData.eng_coul (thr s) + ecoul /\
                 ThrData.eng_vdwl (thr s') = ThrData.eng_vdwl (thr s) /\
                 forall j : Z,
                   eatom s' (cell j) =
                     eatom s (cell j)
                     + INR (count_occ Z.eq_dec l j) * (ecoul / IZR n)).
  { subst s' cell. unfold ev_tally_list_thr. rewrite He, Hg, Ha, Hfirst.
    set (V := when (nonzero (Pair.vflag_either pair)) _).
    assert (HV : virial_only V).
    { subst V. cbv zeta.
      repeat match goal with
        | |- virial_only (_ ;; _) => apply virial_only_andthen
        | |- virial_only (when _ _) => apply virial_only_when
        | |- virial_only (tally_virial_pair _) =>
            apply virial_only_tally_virial_pair
        | |- virial_only (for_list _ _) => apply virial_only_for_list; intros ?
        | |- virial_only (tally_vatom _ _) => apply virial_only_tally_vatom
        end. }
    clearbody V.
    exact (list_energy_before_virial V (ecoul / IZR n) ecoul l s HV). }
  destruct Hrun as (Hcoul & Hvdwl & Hcells).
  split; [exact Hcoul | split; [exact Hvdwl | split; [exact Hcells |]]].
  intros Hnd.
  assert (Hin : forall j : Z, In j l ->
            eatom s' (cell j) = eatom s (cell j) + ecoul / IZR n).
  { intros j Hj. rewrite Hcells.
    rewrite (proj1 (NoDup_count_occ' Z.eq_dec l) Hnd j Hj).
    change (INR 1) with 1. lra. }
  split; [exact Hin |].
  rewrite (map_ext_in _ (fun _ => ecoul / IZR n)).
  - assert (Hsum : forall l0 : list Z,
              fold_right Rplus 0 (map (fun _ : Z => ecoul / IZR n) l0)
              = INR (length l0) * (ecoul / IZR n)).
    { induction l0 as [| y l0 IH]; [cbn; lra |].
      cbn [map fold_right length]. rewrite IH, S_INR. lra. }
    rewrite Hsum, INR_IZR_INZ, Hlen. field. exact Hnz.
  - intros j Hj. rewrite (Hin j Hj). lra.
Qed.

(** An instance of X8: the list of the two atoms 0 and 1, energy 1. *)
Lemma ev_tally_list_thr_energy_witness :
  let s := state_zero 0 in
  let s' := ev_tally_list_thr pair_all_on 2 [0; 1]%Z 1 V6ones s in
  ThrData.eng_coul (thr s') = ThrData.eng_coul (thr s) + 1.
Proof.
  intros s s'.
  exact (proj1 (ev_tally_list_thr_energy pair_all_on 2 [0; 1]%Z 1 V6ones s
                  ltac:(lia) eq_refl eq_refl eq_refl eq_refl)).
Defined.

(** X9.  The list tally with no entry to visit.  For [n <= 0] the two
    loops do not run: both per-atom buffers stay as they are, while the
    thread totals still receive [ecoul] and [v] when the global flags are
    set. *)
Theorem ev_tally_list_thr_no_entries :
  forall (pair : Pair.t) (n : Z) (l : list Z) (ecoul : R) (v : V6)
         (s : state),
    (n <= 0)%Z ->
    let s' := ev_tally_list_thr pair n l ecoul v s in
    eatom s' = eatom s /\ vatom s' = vatom s /\
    (nonzero (Pair.eflag_either pair) = true ->
     nonzero (Pair.eflag_global pair) = true ->
     ThrData.eng_coul (thr s') = ThrData.eng_coul (thr s) + ecoul) /\
    (nonzero (Pair.vflag_either pair) = true ->
     nonzero (Pair.vflag_global pair) = true ->
     ThrData.virial_pair (thr s') = V6add (ThrData.virial_pair (thr s)) v).
Proof.
  intros pair n l ecoul v [d ea va] Hn s'. subst s'.
  unfold ev_tally_list_thr.
  replace (Z.to_nat n) with 0%nat by lia. rewrite firstn_0. cbn [for_list].
  destruct d.
  destruct (nonzero (Pair.eflag_either pair)),
           (nonzero (Pair.eflag_global pair)),
           (nonzero (Pair.eflag_atom pair)),
           (nonzero (Pair.vflag_either pair)),
           (nonzero (Pair.vflag_global pair)),
           (nonzero (Pair.vflag_atom pair));
    run_cmd; repeat split; try reflexivity; intros; discriminate.
Qed.

(** An instance of X9: a count of zero with a list that is not empty. *)
Lemma ev_tally_list_thr_no_entries_witness :
  let s := state_zero 0 in
  let s' := ev_tally_list_thr pair_all_on 0 [0; 1]%Z 1 V6ones s in
  eatom s' = eatom s /\ vatom s' = vatom s.
Proof.
  intros s s'.
  pose proof (ev_tally_list_thr_no_entries pair_all_on 0 [0; 1]%Z 1 V6ones s
                ltac:(lia)) as (He & Hv & _).
  split; [exact He | exact Hv].
Defined.

(** ** More on the dihedral tally *)

(** X10.  The dihedral tally in newton mode.  With every flag set it
    adds the whole [edihedral] to [eng_bond] and the whole virial to
    [virial_dihed], and a quarter of each to the per-atom energy and
    stress cells of every one of the four atoms, with no ownership test;
    no other cell changes, and the four energy quarters add up to
    [edihedral]. *)
Theorem ev_tally_thr_dihedral_newton_mode :
  forall (dihed : Dihedral.t) (i1 i2 i3 i4 nlocal newton_bond : Z)
         (edihedral : R) (f1 f3 f4 : V3)
         (vb1x vb1y vb1z vb2x vb2y vb2z vb3x vb3y vb3z : R) (s : state),
    nonzero newton_bond = true ->
    nonzero (Dihedral.eflag_either dihed) = true ->
    nonzero (Dihedral.eflag_global dihed) = true ->
    nonzero (Dihedral.eflag_atom dihed) = true ->
    nonzero (Dihedral.vflag_either dihed) = true ->
    nonzero (Dihedral.vflag_global dihed) = true ->
    nonzero (Dihedral.vflag_atom dihed) = true ->
    let s' := ev_tally_thr_dihedral dihed i1 i2 i3 i4 nlocal newton_bond
                edihedral f1 f3 f4 vb1x vb1y vb1z vb2x vb2y vb2z
                vb3x vb3y vb3z s in
    let v := virial_dihedral f1 f3 f4 vb1x vb1y vb1z vb2x vb2y vb2z
                             vb3x vb3y vb3z in
    let quarter := 0.25 * edihedral in
    ThrData.eng_bond (thr s') = ThrData.eng_bond (thr s) + edihedral /\
    ThrData.virial_dihed (thr s') = V6add (ThrData.virial_dihed (thr s)) v /\
    (forall a : Z,
       eatom s' a =
         eatom s a
         + at_cell a (eatom_slot (thr s) i1) quarter
         + at_cell a (eatom_slot (thr s) i2) quarter
         + at_cell a (eatom_slot (thr s) i3) quarter
         + at_cell a (eatom_slot (thr s) i4) quarter) /\
    (forall a : Z,
       vatom s' a =
         V6add (V6add (V6add (V6add (vatom s a)
           (at_cell6 a (vatom_slot (thr s) i1) (V6scale 0.25 v)))
           (at_cell6 a (vatom_slot (thr s) i2) (V6scale 0.25 v)))
           (at_cell6 a (vatom_slot (thr s) i3) (V6scale 0.25 v)))
           (at_cell6 a (vatom_slot (thr s) i4) (V6scale 0.25 v))) /\
    quarter + quarter + quarter + quarter = edihedral.
Proof.
  intros dihed i1 i2 i3 i4 nlocal newton_bond edihedral f1 f3 f4
         vb1x vb1y vb1z vb2x vb2y vb2z vb3x vb3y vb3z [d ea va]
         Hn He Heg Hea Hv Hvg Hva s' v quarter.
  subst s' v quarter. unfold ev_tally_thr_dihedral.
  rewrite Hn, He, Heg, Hea, Hv, Hvg, Hva.
  set (w := virial_dihedral _ _ _ _ _ _ _ _ _ _ _ _). clearbody w.
  destruct d. run_cmd.
  split; [reflexivity | split; [reflexivity | split; [| split; [| lra]]]];
    intros a; rewrite ?upd_add, ?upd_v_tally; reflexivity.
Qed.

(** An instance of X10: four atoms of which none is local. *)
Lemma ev_tally_thr_dihedral_newton_mode_witness :
  let z := mkV3 0 0 0 in
  let s' := ev_tally_thr_dihedral dihedral_all_on 4 5 6 7 4 1 1 z z z
              0 0 0 0 0 0 0 0 0 (state_zero 0) in
  ThrData.eng_bond (thr s') = 0 + 1.
Proof.
  intros z s'.
  exact (proj1 (ev_tally_thr_dihedral_newton_mode dihedral_all_on 4 5 6 7 4 1 1
                  z z z 0 0 0 0 0 0 0 0 0 (state_zero 0)
                  eq_refl eq_refl eq_refl eq_refl eq_refl eq_refl eq_refl)).
Defined.

(** X11.  For four local atoms the dihedral tally reaches the same
    thread totals and the same per-atom energies in half mode as in newton
    mode. *)
Theorem ev_tally_thr_dihedral_local_totals :
  forall (dihed : Dihedral.t) (i1 i2 i3 i4 nlocal newton_bond : Z)
         (edihedral : R) (f1 f3 f4 : V3)
         (vb1x vb1y vb1z vb2x vb2y vb2z vb3x vb3y vb3z : R) (s : state),
    (i1 < nlocal)%Z -> (i2 < nlocal)%Z -> (i3 < nlocal)%Z -> (i4 < nlocal)%Z ->
    nonzero newton_bond = true ->
    let half := ev_tally_thr_dihedral dihed i1 i2 i3 i4 nlocal 0
                  edihedral f1 f3 f4 vb1x vb1y vb1z vb2x vb2y vb2z
                  vb3x vb3y vb3z s in
    let newton := ev_tally_thr_dihedral dihed i1 i2 i3 i4 nlocal newton_bond
                    edihedral f1 f3 f4 vb1x vb1y vb1z vb2x vb2y vb2z
                    vb3x vb3y vb3z s in
    thr half = thr newton /\ eatom half = eatom newton.
Proof.
  intros dihed i1 i2 i3 i4 nlocal newton_bond edihedral f1 f3 f4
         vb1x vb1y vb1z vb2x vb2y vb2z vb3x vb3y vb3z [d ea va]
         H1 H2 H3 H4 Hn half newton.
  subst half newton. unfold ev_tally_thr_dihedral, count_local.
  apply Z.ltb_lt in H1; apply Z.ltb_lt in H2;
    apply Z.ltb_lt in H3; apply Z.ltb_lt in H4.
  rewrite H1, H2, H3, H4, Hn. change (nonzero 0) with false.
  set (w := virial_dihedral _ _ _ _ _ _ _ _ _ _ _ _). clearbody w.
  destruct d.
  destruct (nonzero (Dihedral.eflag_either dihed)),
           (nonzero (Dihedral.eflag_global dihed)),
           (nonzero (Dihedral.eflag_atom dihed)),
           (nonzero (Dihedral.vflag_either dihed)),
           (nonzero (Dihedral.vflag_global dihed)),
           (nonzero (Dihedral.vflag_atom dihed));
    run_cmd; (split; [| reflexivity]);
    apply ThrData_eq; run_cmd; try reflexivity;
    try (change (IZR (0 + 1 + 1 + 1 + 1)) with 4; lra);
    try (change (IZR (0 + 1 + 1 + 1 + 1)) with 4; componentwise).
Qed.

(** An instance of X11: the four local atoms 0, 1, 2, 3. *)
Lemma ev_tally_thr_dihedral_local_totals_witness :
  let z := mkV3 0 0 0 in
  thr (ev_tally_thr_dihedral dihedral_all_on 0 1 2 3 4 0 1 z z z
         0 0 0 0 0 0 0 0 0 (state_zero 0)) =
  thr (ev_tally_thr_dihedral dihedral_all_on 0 1 2 3 4 1 1 z z z
         0 0 0 0 0 0 0 0 0 (state_zero 0)).
Proof.
  intros z.
  exact (proj1 (ev_tally_thr_dihedral_local_totals dihedral_all_on 0 1 2 3 4 1 1
                  z z z 0 0 0 0 0 0 0 0 0 (state_zero 0)
                  ltac:(lia) ltac:(lia) ltac:(lia) ltac:(lia) eq_refl)).
Defined.

(** X12.  The per-atom virial of the dihedral tally in half mode.  The
    only stress cell that can change is the cell of the first atom [i1]:
    it receives four quarters of the virial when [i1 < nlocal] and nothing
    otherwise, and the cells of [i2], [i3] and [i4] receive nothing
    whether or not these atoms are local. *)
Theorem ev_tally_thr_dihedral_half_mode_stress :
  forall (dihed : Dihedral.t) (i1 i2 i3 i4 nlocal : Z)
         (edihedral : R) (f1 f3 f4 : V3)
         (vb1x vb1y vb1z vb2x vb2y vb2z vb3x vb3y vb3z : R) (s : state),
    nonzero (Dihedral.vflag_either dihed) = true ->
    nonzero (Dihedral.vflag_atom dihed) = true ->
    let s' := ev_tally_thr_dihedral dihed i1 i2 i3 i4 nlocal 0
                edihedral f1 f3 f4 vb1x vb1y vb1z vb2x vb2y vb2z
                vb3x vb3y vb3z s in
    let v := virial_dihedral f1 f3 f4 vb1x vb1y vb1z vb2x vb2y vb2z
                             vb3x vb3y vb3z in
    let c1 := vatom_slot (thr s) i1 in
    vatom s' c1 = V6add (vatom s c1) (V6scale (owned i1 nlocal) v) /\
    (forall a : Z, a <> c1 -> vatom s' a = vatom s a).
Proof.
  intros dihed i1 i2 i3 i4 nlocal edihedral f1 f3 f4
         vb1x vb1y vb1z vb2x vb2y vb2z vb3x vb3y vb3z [d ea va]
         Hv Hva s' v c1.
  subst s' v c1. unfold ev_tally_thr_dihedral.
  rewrite Hv, Hva. change (nonzero 0) with false.
  set (cnt := count_local i1 i2 i3 i4 nlocal).
  set (w := virial_dihedral _ _ _ _ _ _ _ _ _ _ _ _). clearbody cnt w.
  destruct d. unfold owned.
  destruct (nonzero (Dihedral.eflag_either dihed)),
           (nonzero (Dihedral.eflag_global dihed)),
           (nonzero (Dihedral.eflag_atom dihed)),
           (nonzero (Dihedral.vflag_global dihed)),
           (i1 <? nlocal)%Z, (i2 <? nlocal)%Z, (i3 <? nlocal)%Z,
           (i4 <? nlocal)%Z;
    run_cmd;
    (split;
     [ rewrite ?upd_v_tally; unfold at_cell6; rewrite ?Z.eqb_refl; componentwise
     | intros a Ha; rewrite ?upd_v_tally; unfold at_cell6;
       apply Z.eqb_neq in Ha; rewrite ?Ha, ?V6add_zero; reflexivity ]).
Qed.

(** An instance of X12: four local atoms; the cell of atom 1 is not the
    cell of atom 0 and keeps its value. *)
Lemma ev_tally_thr_dihedral_half_mode_stress_witness :
  let u := mkV3 1 1 1 in
  let z := mkV3 0 0 0 in
  let s := state_zero 0 in
  let s' := ev_tally_thr_dihedral dihedral_all_on 0 1 2 3 4 0 1 u z z
              1 1 1 0 0 0 0 0 0 s in
  vatom s' 1 = vatom s 1.
Proof.
  intros u z s s'.
  exact (proj2 (ev_tally_thr_dihedral_half_mode_stress dihedral_all_on 0 1 2 3 4
                  1 u z z 1 1 1 0 0 0 0 0 0 s eq_refl eq_refl)
               1%Z ltac:(cbn; lia)).
Defined.

(** ** The per-atom virial tallies *)

Lemma v_tally_scale_as_v_tally (vout : V6) (c : R) (v : V6) :
  v_tally_scale vout c v = v_tally vout (V6scale c v).
Proof. reflexivity. Qed.

(** X13.  The three per-atom virial tallies do what the energy-and-virial
    tallies do when only the per-atom virial is asked for, in newton mode:
    [v_tally2_thr] reaches the same state as the pairwise [ev_tally_thr],
    [v_tally3_thr] the same as [ev_tally3_thr], and [v_tally4_thr] the
    same as [ev_tally4_thr]. *)
Theorem per_atom_virial_tallies_agree :
  forall (pair : Pair.t) (i j k m nlocal newton_pair : Z)
         (evdwl ecoul fpair : R) (f1 f2 f3 d1 d2 d3 : V3) (s : state),
    nonzero (Pair.eflag_either pair) = false ->
    nonzero (Pair.vflag_either pair) = true ->
    nonzero (Pair.vflag_global pair) = false ->
    nonzero (Pair.vflag_atom pair) = true ->
    nonzero newton_pair = true ->
    v_tally2_thr i j fpair d1 s =
      ev_tally_thr pair i j nlocal newton_pair evdwl ecoul fpair
        (c0 d1) (c1 d1) (c2 d1) s /\
    v_tally3_thr i j k f1 f2 d1 d2 s =
      ev_tally3_thr pair i j k evdwl ecoul f1 f2 d1 d2 s /\
    v_tally4_thr i j k m f1 f2 f3 d1 d2 d3 s =
      ev_tally4_thr pair i j k m evdwl f1 f2 f3 d1 d2 d3 s.
Proof.
  intros pair i j k m nlocal newton_pair evdwl ecoul fpair f1 f2 f3 d1 d2 d3 s
         He Hv Hg Ha Hn.
  split; [| split].
  - unfold v_tally2_thr, ev_tally_thr, v_tally_thr.
    rewrite He, Hv, Hg, Ha, Hn. cbv zeta.
    set (w := mkV6 (c0 d1 * c0 d1 * fpair) _ _ _ _ _).
    replace (mkV6 (0.5 * c0 d1 * c0 d1 * fpair) (0.5 * c1 d1 * c1 d1 * fpair)
                  (0.5 * c2 d1 * c2 d1 * fpair) (0.5 * c0 d1 * c1 d1 * fpair)
                  (0.5 * c0 d1 * c2 d1 * fpair) (0.5 * c1 d1 * c2 d1 * fpair))
      with (V6scale 0.5 w)
      by (subst w; apply V6_eq; unfold V6scale; cbn; ring).
    reflexivity.
  - unfold v_tally3_thr, ev_tally3_thr. rewrite He, Hv, Hg, Ha. reflexivity.
  - unfold v_tally4_thr, ev_tally4_thr. rewrite He, Ha. reflexivity.
Qed.

(** An instance of X13 with the pair style [pair_vatom_only]. *)
Lemma per_atom_virial_tallies_agree_witness :
  let u := mkV3 1 1 1 in
  v_tally2_thr 0 1 1 u (state_zero 0) =
    ev_tally_thr pair_vatom_only 0 1 2 1 0 0 1 (c0 u) (c1 u) (c2 u)
      (state_zero 0).
Proof.
  intros u.
  exact (proj1 (per_atom_virial_tallies_agree pair_vatom_only 0 1 2 3 2 1
                  0 0 1 u u u u u u (state_zero 0)
                  eq_refl eq_refl eq_refl eq_refl eq_refl)).
Defined.

(** ** More on the reduction *)

(** X14.  The calls that one [reduce_thr] makes, in order.  The pair
    category first synchronises and calls [virial_fdotr_compute] when
    [vflag_fdotr] is set, with [nfirst] replaced by -1 when
    [includegroup] is zero, and synchronises once more when [eflag] or
    [vflag] is non-zero; the other categories make no call before their
    merge.  When the category is the last one of the step, a barrier and
    the force reduction follow, and the torque reduction when there is a
    torque array. *)
Theorem reduce_thr_call_log :
  forall (virial_fdotr_compute : array -> Z -> Z -> Z -> ThrData.t -> ThrData.t)
         (data_reduce_thr : array -> Z -> Z -> Z -> Z -> array)
         (thr_style last_omp_style : thr_style_t) (eflag vflag : Z)
         (s : rstate),
    let s' := reduce_thr virial_fdotr_compute data_reduce_thr
                thr_style last_omp_style eflag vflag s in
    let l := lmp s in
    let nall := (LAMMPS.nlocal l + LAMMPS.nghost l)%Z in
    let before_merge :=
      match thr_style with
      | THR_PAIR =>
          (if nonzero (Pair.vflag_fdotr (LAMMPS.pair l))
           then [call_sync_threads;
                 call_virial_fdotr_compute (LAMMPS.nlocal l) (LAMMPS.nghost l)
                   (if (LAMMPS.includegroup l =? 0)%Z then (-1)%Z
                    else LAMMPS.nfirst l)]
           else [])
          ++ (if nonzero (Z.lor eflag vflag) then [call_sync_threads] else [])
      | _ => []
      end in
    let after_merge :=
      if thr_style_eqb thr_style last_omp_style
      then call_sync_threads
           :: call_data_reduce_thr force_array nall (LAMMPS.nthreads l) 3
                (ThrData.tid (cur s))
           :: match LAMMPS.torque l with
              | Some _ =>
                  [call_data_reduce_thr torque_array nall (LAMMPS.nthreads l) 3
                     (ThrData.tid (cur s))]
              | None => []
              end
      else [] in
    calls s' = calls s ++ before_merge ++ after_merge.
Proof.
  intros fdotr dr thr_style last eflag vflag [l d log]. cbv zeta.
  destruct l. unfold reduce_thr.
  cbn [lmp cur calls LAMMPS.pair LAMMPS.includegroup LAMMPS.torque
       LAMMPS.nlocal LAMMPS.nghost LAMMPS.nfirst LAMMPS.nthreads].
  destruct thr_style;
    destruct (thr_style_eqb _ last); destruct torque.
  5-8: destruct (nonzero (Pair.vflag_fdotr pair)), (includegroup =? 0)%Z,
                (nonzero (Z.lor eflag vflag)),
                (nonzero (Z.land eflag 1)), (nonzero (Z.land vflag 3)).
  all: run_reduce; cbn [app]; rewrite <- ?app_assoc, ?app_nil_r; reflexivity.
Qed.

(** X15.  What one [reduce_thr] leaves alone.  It never changes the atom
    counts, the positions, the number of threads or the group setting;
    it changes the totals of no category other than its own; and it
    changes the caller's accumulator only in the pair category with
    [vflag_fdotr] set, where the accumulator becomes the one
    [virial_fdotr_compute] returns. *)
Theorem reduce_thr_frame :
  forall (virial_fdotr_compute : array -> Z -> Z -> Z -> ThrData.t -> ThrData.t)
         (data_reduce_thr : array -> Z -> Z -> Z -> Z -> array)
         (thr_style last_omp_style : thr_style_t) (eflag vflag : Z)
         (s : rstate),
    let s' := reduce_thr virial_fdotr_compute data_reduce_thr
                thr_style last_omp_style eflag vflag s in
    let l := lmp s in
    let l' := lmp s' in
    (LAMMPS.nlocal l' = LAMMPS.nlocal l /\ LAMMPS.nghost l' = LAMMPS.nghost l /\
     LAMMPS.nfirst l' = LAMMPS.nfirst l /\ LAMMPS.x l' = LAMMPS.x l /\
     LAMMPS.nthreads l' = LAMMPS.nthreads l /\
     LAMMPS.includegroup l' = LAMMPS.includegroup l) /\
    (thr_style <> THR_PAIR -> LAMMPS.pair l' = LAMMPS.pair l) /\
    (thr_style <> THR_BOND -> LAMMPS.bond l' = LAMMPS.bond l) /\
    (thr_style <> THR_ANGLE -> LAMMPS.angle l' = LAMMPS.angle l) /\
    (thr_style <> THR_DIHEDRAL -> LAMMPS.dihedral l' = LAMMPS.dihedral l) /\
    (thr_style <> THR_IMPROPER -> LAMMPS.improper l' = LAMMPS.improper l) /\
    (thr_style <> THR_KSPACE -> LAMMPS.kspace l' = LAMMPS.kspace l) /\
    cur s' =
      (match thr_style with
       | THR_PAIR => at_merge virial_fdotr_compute l (cur s)
       | _ => cur s
       end).
Proof.
  intros fdotr dr thr_style last eflag vflag [l d log]. cbv zeta.
  destruct l. unfold reduce_thr, at_merge.
  cbn [lmp cur calls LAMMPS.pair LAMMPS.includegroup LAMMPS.torque
       LAMMPS.nlocal LAMMPS.nghost LAMMPS.nfirst LAMMPS.nthreads LAMMPS.x].
  destruct thr_style;
    destruct (thr_style_eqb _ last); destruct torque.
  5-8: destruct (nonzero (Pair.vflag_fdotr pair)), (includegroup =? 0)%Z,
                (nonzero (Z.lor eflag vflag)),
                (nonzero (Z.land eflag 1)), (nonzero (Z.land vflag 3)).
  all: run_reduce; repeat split; try reflexivity; intros H; try congruence.
Qed.

(** An instance of X15: the bond category leaves the pair totals alone. *)
Lemma reduce_thr_frame_witness :
  let s := mkR lmp_zero (ThrData.set_eng_bond 1 (thr_zero 0)) [] in
  let s' := reduce_thr fdotr_none data_reduce_none THR_BOND THR_KSPACE 1 1 s in
  LAMMPS.pair (lmp s') = LAMMPS.pair (lmp s).
Proof.
  intros s s'.
  pose proof (reduce_thr_frame fdotr_none data_reduce_none THR_BOND THR_KSPACE
                1 1 s) as (_ & Hp & _).
  apply Hp. discriminate.
Defined.

(** ** Tallies only add *)

Lemma state_ext (a b : state) :
  thr a = thr b ->
  (forall x, eatom a x = eatom b x) ->
  (forall x, vatom a x = vatom b x) ->
  a = b.
Proof.
  intros Ht He Hv. apply state_eq; [exact Ht | |];
    apply functional_extensionality; assumption.
Qed.

(** Equality of two states reached by additions. *)
Ltac same_sums :=
  apply state_ext;
  [ apply ThrData_eq; cbn; try reflexivity; try lra; try componentwise
  | intros ?; cbn; try lra
  | intros ?; cbn; try componentwise ].

Lemma additive_skip : additive skip.
Proof.
  exists delta_zero. intros [[] ea va]. unfold skip, plus; same_sums.
Qed.

Lemma additive_andthen (c1 c2 : cmd) :
  additive c1 -> additive c2 -> additive (c1 ;; c2).
Proof.
  intros [p Hp] [q Hq]. exists (delta_add p q). intros s.
  unfold andthen. rewrite Hp, Hq. destruct s as [[] ea va].
  unfold plus; same_sums.
Qed.

Lemma additive_when (b : bool) (c : cmd) : additive c -> additive (when b c).
Proof.
  intros H. unfold when. destruct b; [exact H | apply additive_skip].
Qed.

Lemma additive_ifelse (b : bool) (c1 c2 : cmd) :
  additive c1 -> additive c2 -> additive (ifelse b c1 c2).
Proof. intros H1 H2. unfold ifelse. destruct b; assumption. Qed.

Lemma additive_add_eng_vdwl (x : R) : additive (add_eng_vdwl x).
Proof.
  exists (mkDelta x 0 0 V6zero V6zero (fun _ => 0) (fun _ => V6zero)).
  intros [[] ea va]. unfold plus; same_sums.
Qed.

Lemma additive_add_eng_coul (x : R) : additive (add_eng_coul x).
Proof.
  exists (mkDelta 0 x 0 V6zero V6zero (fun _ => 0) (fun _ => V6zero)).
  intros [[] ea va]. unfold plus; same_sums.
Qed.

Lemma additive_add_eng_bond (x : R) : additive (add_eng_bond x).
Proof.
  exists (mkDelta 0 0 x V6zero V6zero (fun _ => 0) (fun _ => V6zero)).
  intros [[] ea va]. unfold plus; same_sums.
Qed.

Lemma additive_tally_virial_pair (v : V6) : additive (tally_virial_pair v).
Proof.
  exists (mkDelta 0 0 0 v V6zero (fun _ => 0) (fun _ => V6zero)).
  intros [[] ea va]. unfold plus; same_sums.
Qed.

Lemma additive_tally_virial_pair_scale (c : R) (v : V6) :
  additive (tally_virial_pair_scale c v).
Proof.
  exists (mkDelta 0 0 0 (V6scale c v) V6zero (fun _ => 0) (fun _ => V6zero)).
  intros [[] ea va]. unfold plus; same_sums.
Qed.

Lemma additive_tally_virial_dihed (v : V6) : additive (tally_virial_dihed v).
Proof.
  exists (mkDelta 0 0 0 V6zero v (fun _ => 0) (fun _ => V6zero)).
  intros [[] ea va]. unfold plus; same_sums.
Qed.

Lemma additive_tally_virial_dihed_scale (c : R) (v : V6) :
  additive (tally_virial_dihed_scale c v).
Proof.
  exists (mkDelta 0 0 0 V6zero (V6scale c v) (fun _ => 0) (fun _ => V6zero)).
  intros [[] ea va]. unfold plus; same_sums.
Qed.

Lemma additive_add_eatom (i : Z) (x : R) : additive (add_eatom i x).
Proof.
  exists (mkDelta 0 0 0 V6zero V6zero (fun k => if (k =? i)%Z then x else 0)
                  (fun _ => V6zero)).
  intros [[] ea va]. unfold plus, add_eatom, eatom_slot; cbn [thr eatom vatom
    ThrData._eatom ThrData._vatom d_eatom d_vatom].
  apply state_ext; cbn [thr eatom vatom].
  - apply ThrData_eq; cbn; try reflexivity; try lra; componentwise.
  - intros a. unfold upd.
    destruct (Z.eqb_spec a (_eatom + i)), (Z.eqb_spec (a - _eatom) i);
      try lia; subst; lra.
  - intros a. componentwise.
Qed.

Lemma additive_tally_vatom (i : Z) (v : V6) : additive (tally_vatom i v).
Proof.
  exists (mkDelta 0 0 0 V6zero V6zero (fun _ => 0)
                  (fun k => if (k =? i)%Z then v else V6zero)).
  intros [[] ea va]. unfold plus, tally_vatom, vatom_slot; cbn [thr eatom vatom
    ThrData._eatom ThrData._vatom d_eatom d_vatom].
  apply state_ext; cbn [thr eatom vatom].
  - apply ThrData_eq; cbn; try reflexivity; try lra; componentwise.
  - intros a. lra.
  - intros a. unfold upd.
    destruct (Z.eqb_spec a (_vatom + i)), (Z.eqb_spec (a - _vatom) i);
      try lia; subst; [reflexivity | symmetry; apply V6add_zero].
Qed.

Lemma additive_tally_vatom_scale (i : Z) (c : R) (v : V6) :
  additive (tally_vatom_scale i c v).
Proof.
  destruct (additive_tally_vatom i (V6scale c v)) as [p Hp].
  exists p. intros s. rewrite <- Hp. reflexivity.
Qed.

Lemma additive_for_list (body : Z -> cmd) (l : list Z) :
  (forall j, additive (body j)) -> additive (for_list body l).
Proof.
  intros H; induction l as [| x l IH]; cbn [for_list].
  - apply additive_skip.
  - apply additive_andthen; [apply H | exact IH].
Qed.

(** The structure of a tally, statement by statement. *)
Ltac add_up :=
  repeat match goal with
    | |- additive (_ ;; _) => apply additive_andthen
    | |- additive (when _ _) => apply additive_when
    | |- additive (ifelse _ _ _) => apply additive_ifelse
    | |- additive (for_list _ _) => apply additive_for_list; intros ?
    | |- additive (add_eng_vdwl _) => apply additive_add_eng_vdwl
    | |- additive (add_eng_coul _) => apply additive_add_eng_coul
    | |- additive (add_eng_bond _) => apply additive_add_eng_bond
    | |- additive (tally_virial_pair _) => apply additive_tally_virial_pair
    | |- additive (tally_virial_pair_scale _ _) =>
        apply additive_tally_virial_pair_scale
    | |- additive (tally_virial_dihed _) => apply additive_tally_virial_dihed
    | |- additive (tally_virial_dihed_scale _ _) =>
        apply additive_tally_virial_dihed_scale
    | |- additive (add_eatom _ _) => apply additive_add_eatom
    | |- additive (tally_vatom _ _) => apply additive_tally_vatom
    | |- additive (tally_vatom_scale _ _ _) => apply additive_tally_vatom_scale
    end.

Lemma tally_op_additive (c : cmd) : tally_op c -> additive c.
Proof.
  intros []; unfold e_tally_thr, v_tally_thr, ev_tally_thr, ev_tally_xyz_thr,
    ev_tally3_thr, ev_tally4_thr, ev_tally_list_thr, ev_tally_thr_dihedral,
    v_tally2_thr, v_tally3_thr, v_tally4_thr, e_tally_thr, v_tally_thr;
    cbv zeta; add_up.
Qed.

(** X16.  Tallies commute.  Whatever two tally operations a thread
    performs, pairwise, triplet, quadruplet, list or dihedral, and
    whatever atoms they share, the state it reaches, totals and every
    per-atom cell, does not depend on the order of the two. *)
Theorem tallies_commute :
  forall (c1 c2 : cmd) (s : state),
    tally_op c1 -> tally_op c2 -> c2 (c1 s) = c1 (c2 s).
Proof.
  intros c1 c2 s H1 H2.
  destruct (tally_op_additive c1 H1) as [p Hp].
  destruct (tally_op_additive c2 H2) as [q Hq].
  rewrite !Hp, !Hq. destruct s as [[] ea va]. unfold plus; same_sums.
Qed.

(** An instance of X16: a pairwise tally of the atoms 0 and 1 and a list
    tally of the atoms 1 and 2. *)
Lemma tallies_commute_witness :
  let c1 := ev_tally_thr pair_all_on 0 1 2 0 1 1 1 1 1 1 in
  let c2 := ev_tally_list_thr pair_all_on 2 [1; 2]%Z 1 V6ones in
  c2 (c1 (state_zero 0)) = c1 (c2 (state_zero 0)).
Proof.
  intros c1 c2.
  exact (tallies_commute c1 c2 (state_zero 0)
           (op_ev_tally_thr _ _ _ _ _ _ _ _ _ _ _)
           (op_ev_tally_list_thr _ _ _ _ _)).
Defined.
